(** * MetricsRepository: a shallow embedding of [src/repository/metricsRepository.py]

    The accessor talks to a remote REST store through [requests].  Every
    public method is a [try: ... except Exception:] block around one or two
    blocking HTTP calls followed by straight-line handling of the response.

    The embedding keeps that shape:
    - Python values are an inductive type [pyval]; dicts are [gmap string _];
    - a method is a computation in a state-and-exception monad [M]; the
      state carries the outside world (the store behind the transport), the
      trace of requests issued so far and the log;
    - the transport is a parameter [send]: it answers a request with a
      response or with an exception and moves the world on. *)

From Stdlib Require Import ZArith QArith String Ascii DecimalString DecimalPos
  DecimalZ Lia.
From stdpp Require Import gmap strings list fin_maps.

Set Warnings "-register-all".
Set Default Proof Using "Type".
Open Scope string_scope.
Open Scope list_scope.
Open Scope Z_scope.

(** ** Python values *)

Module Py.

(** The values that flow through the accessor: what [json.loads] can
    produce and what a caller can put in a payload.  A float is represented
    by the rational it denotes; rounding and non-finite floats are outside
    the model. *)
Inductive pyval : Type :=
| PNone
| PBool (b : bool)
| PInt (z : Z)
| PFloat (q : Q)
| PStr (s : string)
| PList (l : list pyval)
| PDict (d : gmap string pyval).

(** The exceptions the accessor can meet; all derive from [Exception]. *)
Inductive exn : Type :=
| ValueError (msg : string)
| TypeError
| KeyError
| IndexError
| AttributeError
| ZeroDivisionError
| OverflowError
| JSONDecodeError
| RequestException.

(** Outcome of evaluating an expression: a value, or a raised exception. *)
Inductive res (A : Type) : Type :=
| Ret (a : A)
| Raise (e : exn).
Arguments Ret {A} a.
Arguments Raise {A} e.

Definition res_bind {A B} (r : res A) (k : A → res B) : res B :=
  match r with
  | Ret a => k a
  | Raise e => Raise e
  end.

(** [bool(v)] *)
Definition truthy (v : pyval) : bool :=
  match v with
  | PNone => false
  | PBool b => b
  | PInt z => negb (z =? 0)
  | PFloat q => negb (Qeq_bool q (0 # 1))
  | PStr s => negb (String.eqb s "")
  | PList l => match l with [] => false | _ => true end
  | PDict d => negb (bool_decide (d = ∅))
  end.

(** [isinstance(v, int)]: [bool] is a subclass of [int]. *)
Definition isinstance_int (v : pyval) : bool :=
  match v with
  | PInt _ | PBool _ => true
  | _ => false
  end.

(** [isinstance(v, list)] *)
Definition isinstance_list (v : pyval) : bool :=
  match v with
  | PList _ => true
  | _ => false
  end.

(** [v is not None] *)
Definition is_not_none (v : pyval) : bool :=
  match v with
  | PNone => false
  | _ => true
  end.

(** [str(z)] for an integer: decimal digits with a leading minus sign. *)
Definition str_of_int (z : Z) : string :=
  NilZero.string_of_int (Z.to_int z).

(** [v[0]] *)
Definition getitem_0 (v : pyval) : res pyval :=
  match v with
  | PList l => match l with
               | x :: _ => Ret x
               | [] => Raise IndexError
               end
  | PStr s => match s with
              | String c _ => Ret (PStr (String c ""))
              | EmptyString => Raise IndexError
              end
  | PDict _ => Raise KeyError
  | _ => Raise TypeError
  end.

(** [v[key]] for a string key *)
Definition getitem_key (v : pyval) (key : string) : res pyval :=
  match v with
  | PDict d => match d !! key with
               | Some x => Ret x
               | None => Raise KeyError
               end
  | _ => Raise TypeError
  end.

(** [v.get(key)]: only dicts have the method. *)
Definition dict_get (v : pyval) (key : string) : res pyval :=
  match v with
  | PDict d => Ret (default PNone (d !! key))
  | _ => Raise AttributeError
  end.

(** The items [for x in v] walks through. *)
Definition iterate (v : pyval) : res (list pyval) :=
  match v with
  | PList l => Ret l
  | PDict d => Ret (PStr <$> (map_to_list d).*1)
  | PStr s => Ret ((λ c, PStr (String c "")) <$> list_ascii_of_string s)
  | _ => Raise TypeError
  end.

(** [len(v)] *)
Definition py_len (v : pyval) : res Z :=
  match v with
  | PList l => Ret (Z.of_nat (length l))
  | PDict d => Ret (Z.of_nat (size d))
  | PStr s => Ret (Z.of_nat (String.length s))
  | _ => Raise TypeError
  end.

(** Magnitudes from [FLOAT_OVERFLOW] on do not fit a double: the largest
    finite double is [2^1024 - 2^971] and round-half-even sends everything
    from the midpoint [2^1024 - 2^970] upwards to infinity. *)
Definition FLOAT_OVERFLOW : Z := 2 ^ 1024 - 2 ^ 970.

(** [float(z)] as used by mixed int/float arithmetic. *)
Definition float_of_int (z : Z) : res Q :=
  if FLOAT_OVERFLOW <=? Z.abs z then Raise OverflowError else Ret (z # 1).

Definition int_of_bool (b : bool) : Z := if b then 1 else 0.

(** [a + b] on the operand types [sum] can meet. *)
Definition py_add (a b : pyval) : res pyval :=
  match a, b with
  | PInt x, PInt y => Ret (PInt (x + y))
  | PInt x, PBool y => Ret (PInt (x + int_of_bool y))
  | PBool x, PInt y => Ret (PInt (int_of_bool x + y))
  | PBool x, PBool y => Ret (PInt (int_of_bool x + int_of_bool y))
  | PInt x, PFloat y => res_bind (float_of_int x) (λ x', Ret (PFloat (x' + y)))
  | PBool x, PFloat y => Ret (PFloat ((int_of_bool x # 1) + y))
  | PFloat x, PInt y => res_bind (float_of_int y) (λ y', Ret (PFloat (x + y')))
  | PFloat x, PBool y => Ret (PFloat (x + (int_of_bool y # 1)))
  | PFloat x, PFloat y => Ret (PFloat (x + y))
  | _, _ => Raise TypeError
  end.

(** [sum(l)]: a left fold of [+] from the integer 0. *)
Fixpoint sum_from (acc : pyval) (l : list pyval) : res pyval :=
  match l with
  | [] => Ret acc
  | x :: l' => res_bind (py_add acc x) (λ acc', sum_from acc' l')
  end.

Definition py_sum (l : list pyval) : res pyval := sum_from (PInt 0) l.

(** [a / n] for an integer divisor [n] (here always a length).  Integer
    true division yields the float nearest to the exact quotient, or
    [OverflowError] when that is out of range. *)
Definition py_truediv (a : pyval) (n : Z) : res pyval :=
  if n =? 0 then Raise ZeroDivisionError else
  match a with
  | PInt x =>
      if FLOAT_OVERFLOW * Z.abs n <=? Z.abs x then Raise OverflowError
      else Ret (PFloat ((x # 1) / (n # 1)))
  | PBool x => Ret (PFloat ((int_of_bool x # 1) / (n # 1)))
  | PFloat x => res_bind (float_of_int n) (λ n', Ret (PFloat (x / n')))
  | _ => Raise TypeError
  end.

(** *** [int(s)] and [s.split('/')[-1]] *)

(** Whitespace that [int] strips, for strings of one-byte characters: tab
    to carriage return and the space, and the two one-byte characters
    above 127 that count as spaces (next line, no-break space).  The
    separators 28 to 31 are not stripped: [int] raises on them. *)
Definition is_space (c : ascii) : bool :=
  let n := nat_of_ascii c in
  (((9 <=? n) && (n <=? 13)) || (n =? 32) || (n =? 133) || (n =? 160))%nat.

Definition digit_of (c : ascii) : option Z :=
  let n := nat_of_ascii c in
  if ((48 <=? n) && (n <=? 57))%nat then Some (Z.of_nat (n - 48)) else None.

Fixpoint lstrip (l : list ascii) : list ascii :=
  match l with
  | c :: l' => if is_space c then lstrip l' else l
  | [] => []
  end.

Definition strip (l : list ascii) : list ascii :=
  rev (lstrip (rev (lstrip l))).

(** Decimal digits; single underscores are allowed between two digits.
    [prev] tells whether the previous character was a digit. *)
Fixpoint parse_digits (acc : Z) (prev : bool) (l : list ascii) : option Z :=
  match l with
  | [] => if prev then Some acc else None
  | c :: l' =>
      if Ascii.eqb c "_" then
        if prev then parse_digits acc false l' else None
      else
        match digit_of c with
        | Some d => parse_digits (10 * acc + d) true l'
        | None => None
        end
  end.

(** [int(s)] in base 10. *)
Definition int_of_str (s : string) : res Z :=
  let l := strip (list_ascii_of_string s) in
  let '(neg, ds) :=
    match l with
    | c :: r => if Ascii.eqb c "-" then (true, r)
                else if Ascii.eqb c "+" then (false, r)
                else (false, l)
    | [] => (false, l)
    end in
  match parse_digits 0 false ds with
  | Some n => Ret (if neg then - n else n)
  | None => Raise (ValueError "invalid literal for int() with base 10")
  end.

(** [cur] collects the characters since the last separator. *)
Fixpoint last_segment_from (cur : list ascii) (l : list ascii) : list ascii :=
  match l with
  | [] => cur
  | c :: l' =>
      if Ascii.eqb c "/" then last_segment_from [] l'
      else last_segment_from (cur ++ [c]) l'
  end.

(** [s.split('/')[-1]] *)
Definition split_slash_last (s : string) : string :=
  string_of_list_ascii (last_segment_from [] (list_ascii_of_string s)).

End Py.
Export Py.

(** ** The transport: requests and responses *)

Module Http.

Inductive method : Type := GET | POST.

(** What [requests.get] / [requests.post] is called with. *)
Record request : Type := mkRequest {
  req_method : method;
  req_url : string;
  req_headers : gmap string string;
  req_params : gmap string pyval;
  req_json : option (gmap string pyval)
}.

(** What comes back.  [json_body] is the outcome of [response.json()]:
    [None] when the body is not valid JSON.  Header names are stored in
    lower case, which is how the case-insensitive [response.headers]
    looks them up. *)
Record response : Type := mkResponse {
  status_code : Z;
  json_body : option pyval;
  resp_headers : gmap string string
}.

Definition response_json (r : response) : res pyval :=
  match json_body r with
  | Some v => Ret v
  | None => Raise JSONDecodeError
  end.

End Http.
Export Http.

(** ** The monad of accessor methods *)

Inductive level : Type := INFO | ERROR.

(** A log record: its level and the constant head of its message (the
    interpolated tail is not kept). *)
Definition log_entry : Type := level * string.

Record state (World : Type) : Type := mkState {
  world : World;
  trace : list request;
  log : list log_entry
}.
Arguments mkState {World} _ _ _.
Arguments world {World} _.
Arguments trace {World} _.
Arguments log {World} _.

Definition M (World : Type) (A : Type) : Type :=
  state World → res A * state World.

#[global] Instance M_ret {World} : MRet (M World) :=
  λ A a s, (Ret a, s).

#[global] Instance M_bind {World} : MBind (M World) :=
  λ A B k m s,
    match m s with
    | (Ret a, s') => k a s'
    | (Raise e, s') => (Raise e, s')
    end.

(** [raise e] *)
Definition raise {World A} (e : exn) : M World A :=
  λ s, (Raise e, s).

(** Evaluation of a pure expression that may raise. *)
Definition lift {World A} (r : res A) : M World A :=
  λ s, (r, s).

(** [try: body  except Exception as e: handler e] *)
Definition try_except {World A} (body : M World A) (handler : exn → M World A)
  : M World A :=
  λ s,
    match body s with
    | (Ret a, s') => (Ret a, s')
    | (Raise e, s') => handler e s'
    end.

Definition logger (lv : level) (msg : string) {World} : M World () :=
  λ s, (Ret (), mkState (world s) (trace s) (log s ++ [(lv, msg)])).

(** [for x in l: body x] *)
Fixpoint for_each {World A} (l : list A) (body : A → M World ()) : M World () :=
  match l with
  | [] => mret ()
  | x :: l' => _ ← body x; for_each l' body
  end.

#[global] Instance res_ret : MRet res := λ A a, Ret a.
#[global] Instance res_mbind : MBind res := λ A B k r, res_bind r k.

(** ** The repository *)

(** The attributes [__init__] sets on [self]. *)
Record repository : Type := mkRepository {
  base_url : string;
  headers : gmap string string;
  table_name : string
}.

(** The dict returned by [get_metrics_summary]. *)
Record summary : Type := mkSummary {
  total_count : Z;
  average_scores : gmap string pyval
}.

(** The dict returned by [get_repo_metrics_summary]. *)
Record repo_summary : Type := mkRepoSummary {
  repo_id : string;
  metric_count : Z;
  repo_average_scores : gmap string pyval
}.

Definition required_fields : list string :=
  ["repoID"; "importID"; "commitHistScore"; "complexityScore"].

(** The list bound to [valid_score_fields] in [get_metrics_by_score_range]
    and to [score_fields] in both summaries. *)
Definition score_fields : list string :=
  ["commitHistScore"; "complexityScore"; "churnScore"; "totalScore";
   "packageVersionScore"].

(** [[metric[field] for metric in items if metric.get(field) is not None]] *)
Fixpoint valid_scores_of (field : string) (items : list pyval) : res (list pyval) :=
  match items with
  | [] => Ret []
  | metric :: rest =>
      g ← dict_get metric field;
      if is_not_none g then
        v ← getitem_key metric field;
        vs ← valid_scores_of field rest;
        Ret (v :: vs)
      else valid_scores_of field rest
  end.

(** One round of the averaging loop: the value stored under
    [avg_<field>]. *)
Definition average_of (field : string) (metrics : pyval) : res pyval :=
  items ← iterate metrics;
  valid_scores ← valid_scores_of field items;
  if truthy (PList valid_scores) then
    total ← py_sum valid_scores;
    py_truediv total (Z.of_nat (length valid_scores))
  else Ret PNone.

(** The loop [for field in score_fields: ...] that fills [avg_scores]; the
    two summaries contain the same loop verbatim. *)
Fixpoint average_scores_loop (fields : list string) (metrics : pyval)
    (avg_scores : gmap string pyval) : res (gmap string pyval) :=
  match fields with
  | [] => Ret avg_scores
  | field :: fields' =>
      a ← average_of field metrics;
      average_scores_loop fields' metrics (<["avg_" +:+ field := a]> avg_scores)
  end.

Section MetricsRepository.

Context {World : Type}.

(** The network: how the world answers a request. *)
Variable send : World → request → res response * World.

(** [Config.SUPABASE_URL] and [Config.SUPABASE_KEY]. *)
Variables SUPABASE_URL SUPABASE_KEY : string.

Definition requests_call (req : request) : M World response :=
  λ s,
    let '(r, w') := send (world s) req in
    (r, mkState w' (trace s ++ [req]) (log s)).

(** [requests.get(url, headers=headers, params=params)] *)
Definition requests_get (url : string) (hdrs : gmap string string)
    (params : gmap string pyval) : M World response :=
  requests_call (mkRequest GET url hdrs params None).

(** [requests.post(url, headers=headers, json=body)] *)
Definition requests_post (url : string) (hdrs : gmap string string)
    (body : gmap string pyval) : M World response :=
  requests_call (mkRequest POST url hdrs ∅ (Some body)).

(** [MetricsRepository()] *)
Definition init : repository :=
  {| base_url := SUPABASE_URL +:+ "/rest/v1";
     headers := {[ "apikey" := SUPABASE_KEY;
                   "Authorization" := "Bearer " +:+ SUPABASE_KEY;
                   "Content-Type" := "application/json";
                   "Prefer" := "return=representation" ]};
     table_name := "metrics" |}.

Definition table_url (self : repository) : string :=
  base_url self +:+ "/" +:+ table_name self.

Definition create_metric (self : repository) (metric_data : gmap string pyval)
  : M World pyval :=
  try_except
    (_ ← for_each required_fields (λ field,
           match metric_data !! field with
           | None => raise (ValueError ("Missing required field: " +:+ field))
           | Some _ => mret ()
           end);
     c ← lift (getitem_key (PDict metric_data) "commitHistScore");
     _ ← (if negb (isinstance_int c)
          then raise (ValueError "commitHistScore must be an integer")
          else mret ());
     c ← lift (getitem_key (PDict metric_data) "complexityScore");
     _ ← (if negb (isinstance_int c)
          then raise (ValueError "complexityScore must be an integer")
          else mret ());
     let url := table_url self in
     response ← requests_post url (headers self) metric_data;
     if status_code response =? 201 then
       created_metric ← lift (response_json response);
       _ ← logger INFO "Created metric: ";
       if isinstance_list created_metric
       then lift (getitem_0 created_metric)
       else mret created_metric
     else
       _ ← logger ERROR "Failed to create metric: ";
       mret PNone)
    (λ e, _ ← logger ERROR "Error creating metric: "; mret PNone).

Definition get_metric_by_keys (self : repository) (repo_id import_id : string)
  : M World pyval :=
  try_except
    (let url := table_url self in
     let params : gmap string pyval :=
       {[ "repoID" := PStr ("eq." +:+ repo_id);
          "importID" := PStr ("eq." +:+ import_id);
          "select" := PStr "*" ]} in
     response ← requests_get url (headers self) params;
     if status_code response =? 200 then
       data ← lift (response_json response);
       if truthy data then lift (getitem_0 data)
       else
         _ ← logger INFO "Metric with repoID ";
         mret PNone
     else
       _ ← logger ERROR "Failed to retrieve metric: ";
       mret PNone)
    (λ e, _ ← logger ERROR "Error retrieving metric "; mret PNone).

Definition get_metrics_by_repo (self : repository) (repo_id : string)
    (limit offset : Z) : M World pyval :=
  try_except
    (let url := table_url self in
     let params : gmap string pyval :=
       {[ "repoID" := PStr ("eq." +:+ repo_id);
          "select" := PStr "*";
          "limit" := PInt limit;
          "offset" := PInt offset ]} in
     response ← requests_get url (headers self) params;
     if status_code response =? 200 then lift (response_json response)
     else
       _ ← logger ERROR "Failed to retrieve metrics for repo ";
       mret (PList []))
    (λ e, _ ← logger ERROR "Error retrieving metrics for repo "; mret (PList [])).

Definition get_metrics_by_import (self : repository) (import_id : string)
    (limit offset : Z) : M World pyval :=
  try_except
    (let url := table_url self in
     let params : gmap string pyval :=
       {[ "importID" := PStr ("eq." +:+ import_id);
          "select" := PStr "*";
          "limit" := PInt limit;
          "offset" := PInt offset ]} in
     response ← requests_get url (headers self) params;
     if status_code response =? 200 then lift (response_json response)
     else
       _ ← logger ERROR "Failed to retrieve metrics for import ";
       mret (PList []))
    (λ e, _ ← logger ERROR "Error retrieving metrics for import "; mret (PList [])).

Definition get_all_metrics (self : repository) (limit offset : Z) : M World pyval :=
  try_except
    (let url := table_url self in
     let params : gmap string pyval :=
       {[ "select" := PStr "*";
          "limit" := PInt limit;
          "offset" := PInt offset ]} in
     response ← requests_get url (headers self) params;
     if status_code response =? 200 then lift (response_json response)
     else
       _ ← logger ERROR "Failed to retrieve metrics: ";
       mret (PList []))
    (λ e, _ ← logger ERROR "Error retrieving metrics: "; mret (PList [])).

(** The values of the keyword defaults [limit=100, offset=0]. *)
Definition DEFAULT_LIMIT : Z := 100.
Definition DEFAULT_OFFSET : Z := 0.

(** The [params] dict display of [get_metrics_by_score_range]: three
    [key: value] pairs stored from left to right. *)
Definition score_range_params (score_field : string) (min_score max_score : Z)
  : gmap string pyval :=
  <[score_field := PStr ("lte." +:+ str_of_int max_score)]>
    (<[score_field := PStr ("gte." +:+ str_of_int min_score)]>
       (<["select" := PStr "*"]> ∅)).

Definition get_metrics_by_score_range (self : repository) (score_field : string)
    (min_score max_score : Z) : M World pyval :=
  try_except
    (let valid_score_fields := score_fields in
     _ ← (if negb (bool_decide (score_field ∈ valid_score_fields))
          then raise (ValueError "Invalid score field. Must be one of: ")
          else mret ());
     let url := table_url self in
     let params := score_range_params score_field min_score max_score in
     response ← requests_get url (headers self) params;
     if status_code response =? 200 then lift (response_json response)
     else
       _ ← logger ERROR "Failed to retrieve metrics by score range: ";
       mret (PList []))
    (λ e, _ ← logger ERROR "Error retrieving metrics by score range: ";
          mret (PList [])).

(** Lines 261-266 of [get_metrics_summary]: the total read off the
    [content-range] header of the count response. *)
Definition count_of_response (count_response : response) : res Z :=
  if status_code count_response =? 200 then
    match resp_headers count_response !! "content-range" with
    | Some count_header =>
        if truthy (PStr count_header)
        then int_of_str (split_slash_last count_header)
        else Ret 0
    | None => Ret 0
    end
  else Ret 0.

Definition get_metrics_summary (self : repository) : M World summary :=
  try_except
    (let url := table_url self in
     let count_params : gmap string pyval :=
       {[ "select" := PStr "count"; "count" := PStr "exact" ]} in
     count_response ← requests_get url (headers self) count_params;
     total_count ← lift (count_of_response count_response);
     all_metrics ← get_all_metrics self 1000 DEFAULT_OFFSET;
     (* [avg_scores] is bound only when the branch is taken *)
     avg_scores ← (if truthy all_metrics
                   then a ← lift (average_scores_loop score_fields all_metrics ∅);
                        mret (Some a)
                   else mret None);
     mret {| total_count := total_count;
             average_scores := default ∅ avg_scores |})
    (λ e, _ ← logger ERROR "Error getting metrics summary: ";
          mret {| total_count := 0; average_scores := ∅ |}).

Definition get_repo_metrics_summary (self : repository) (repo_id : string)
  : M World repo_summary :=
  try_except
    (metrics ← get_metrics_by_repo self repo_id DEFAULT_LIMIT DEFAULT_OFFSET;
     if negb (truthy metrics) then
       mret {| repo_id := repo_id; metric_count := 0;
               repo_average_scores := ∅ |}
     else
       avg_scores ← lift (average_scores_loop score_fields metrics ∅);
       n ← lift (py_len metrics);
       mret {| repo_id := repo_id; metric_count := n;
               repo_average_scores := avg_scores |})
    (λ e, _ ← logger ERROR "Error getting repo metrics summary for ";
          mret {| repo_id := repo_id; metric_count := 0;
                  repo_average_scores := ∅ |}).

End MetricsRepository.

Arguments create_metric {World} send self metric_data.
Arguments get_metric_by_keys {World} send self repo_id import_id.
Arguments get_metrics_by_repo {World} send self repo_id limit offset.
Arguments get_metrics_by_import {World} send self import_id limit offset.
Arguments get_all_metrics {World} send self limit offset.
Arguments get_metrics_by_score_range {World} send self score_field min_score max_score.
Arguments get_metrics_summary {World} send self.
Arguments get_repo_metrics_summary {World} send self repo_id.

(** ** Transports to run the accessor against *)

Module Scripted.

(** A test double: the world is the list of outcomes still to be played,
    one per request; an exhausted script behaves like a dead network. *)
Definition send (w : list (res response)) (req : request)
  : res response * list (res response) :=
  match w with
  | o :: w' => (o, w')
  | [] => (Raise RequestException, [])
  end.

End Scripted.

Module RefStore.

(** Modelled from the spec: the remote store behind the REST endpoint
    (section 6, external to this repository).  A table is the list of its
    rows in store order; [GET] filters with [eq.], [gte.] and [lte.],
    paginates with [limit] and [offset], and in count mode reports the
    exact row count in a [content-range] header; [POST] appends the row
    and echoes it with status 201. *)
Definition table : Type := list (gmap string pyval).

Definition columns : list string := ["repoID"; "importID"] ++ score_fields.

Fixpoint strip_prefix (p s : string) : option string :=
  match p with
  | EmptyString => Some s
  | String a p' =>
      match s with
      | String b s' => if Ascii.eqb a b then strip_prefix p' s' else None
      | EmptyString => None
      end
  end.

(** Does a cell satisfy the condition [eq.v], [gte.n] or [lte.n]? *)
Definition cell_matches (cond : pyval) (cell : option pyval) : bool :=
  match cond with
  | PStr c =>
      match strip_prefix "eq." c, strip_prefix "gte." c, strip_prefix "lte." c with
      | Some v, _, _ =>
          match cell with
          | Some (PStr s) => String.eqb s v
          | Some (PInt z) => String.eqb (str_of_int z) v
          | _ => false
          end
      | _, Some v, _ =>
          match cell, int_of_str v with
          | Some (PInt z), Ret n => n <=? z
          | _, _ => false
          end
      | _, _, Some v =>
          match cell, int_of_str v with
          | Some (PInt z), Ret n => z <=? n
          | _, _ => false
          end
      | None, None, None => false
      end
  | _ => false
  end.

Definition row_matches (params : gmap string pyval) (row : gmap string pyval) : bool :=
  forallb (λ c, match params !! c with
                | Some cond => cell_matches cond (row !! c)
                | None => true
                end) columns.

Definition page (params : gmap string pyval) (rows : table) : table :=
  let rows := match params !! "offset" with
              | Some (PInt o) => drop (Z.to_nat o) rows
              | _ => rows
              end in
  match params !! "limit" with
  | Some (PInt l) => take (Z.to_nat l) rows
  | _ => rows
  end.

Definition select_rows (params : gmap string pyval) (t : table) : table :=
  page params (List.filter (row_matches params) t).

(** [<start>-<end>/<total>]; an empty range is written [*]. *)
Definition content_range (n : nat) : string :=
  match n with
  | O => "*/0"
  | S m => "0-" +:+ str_of_int (Z.of_nat m) +:+ "/" +:+ str_of_int (Z.of_nat n)
  end.

Definition is_count_request (params : gmap string pyval) : bool :=
  match params !! "count" with
  | Some (PStr s) => String.eqb s "exact"
  | _ => false
  end.

Definition send (t : table) (req : request) : res response * table :=
  match req_method req with
  | POST =>
      match req_json req with
      | Some row => (Ret (mkResponse 201 (Some (PList [PDict row])) ∅), t ++ [row])
      | None => (Ret (mkResponse 400 None ∅), t)
      end
  | GET =>
      if is_count_request (req_params req) then
        (Ret (mkResponse 200
                (Some (PList [PDict {[ "count" := PInt (Z.of_nat (length t)) ]}]))
                {[ "content-range" := content_range (length t) ]}), t)
      else
        (Ret (mkResponse 200
                (Some (PList (PDict <$> select_rows (req_params req) t))) ∅), t)
  end.

(** A row of the metrics table. *)
Definition metric (repo import : string) (commit complexity : Z)
    (churn total package : option Z) : gmap string pyval :=
  let opt (o : option Z) := match o with Some z => PInt z | None => PNone end in
  {[ "repoID" := PStr repo; "importID" := PStr import;
     "commitHistScore" := PInt commit; "complexityScore" := PInt complexity;
     "churnScore" := opt churn; "totalScore" := opt total;
     "packageVersionScore" := opt package ]}.

End RefStore.

(** ** Specification-side notions *)

(** The integer a record holds in [field], when present and not null. *)
Definition score_of (field : string) (m : pyval) : option Z :=
  match m with
  | PDict d => match d !! field with
               | Some (PInt z) => Some z
               | _ => None
               end
  | _ => None
  end.

Definition non_null_scores (field : string) (ms : list pyval) : list Z :=
  omap (score_of field) ms.

Definition sumZ (l : list Z) : Z := foldr Z.add 0 l.

(** Arithmetic mean of a list of integers, as a rational. *)
Definition mean (vs : list Z) : Q :=
  (sumZ vs # 1) / (Z.of_nat (length vs) # 1).

(** What the spec puts under [avg_<field>]: the mean of the non-null
    values, or [None] when there is none. *)
Definition expected_average (field : string) (ms : list pyval) : pyval :=
  match non_null_scores field ms with
  | [] => PNone
  | vs => PFloat (mean vs)
  end.

(** The spec's [average_scores] for a list of fetched records. *)
Definition expected_averages (ms : list pyval) : gmap string pyval :=
  match ms with
  | [] => ∅
  | _ => list_to_map ((λ f, ("avg_" +:+ f, expected_average f ms)) <$> score_fields)
  end.

(** A score cell of the data model: absent, null, or an integer (small
    enough for its mean to be a float). *)
Definition is_score (cell : option pyval) : bool :=
  match cell with
  | None | Some PNone => true
  | Some (PInt z) => Z.abs z <? FLOAT_OVERFLOW
  | _ => false
  end.

(** A metric record as the data model has it: an object whose five score
    fields are score cells. *)
Definition is_metric_record (v : pyval) : bool :=
  match v with
  | PDict d => forallb (λ f, is_score (d !! f)) score_fields
  | _ => false
  end.

(** *** The requests each method builds *)

(** [create_metric]: the payload is the JSON body. *)
Definition post_request (self : repository) (d : gmap string pyval) : request :=
  mkRequest POST (table_url self) (headers self) ∅ (Some d).

(** [get_metric_by_keys]: equality filters on both key columns. *)
Definition keys_request (self : repository) (repo_id import_id : string) : request :=
  mkRequest GET (table_url self) (headers self)
    {[ "repoID" := PStr ("eq." +:+ repo_id);
       "importID" := PStr ("eq." +:+ import_id);
       "select" := PStr "*" ]} None.

(** [get_metrics_by_repo] *)
Definition repo_request (self : repository) (repo_id : string) (limit offset : Z)
  : request :=
  mkRequest GET (table_url self) (headers self)
    {[ "repoID" := PStr ("eq." +:+ repo_id);
       "select" := PStr "*";
       "limit" := PInt limit;
       "offset" := PInt offset ]} None.

(** [get_metrics_by_import] *)
Definition import_request (self : repository) (import_id : string) (limit offset : Z)
  : request :=
  mkRequest GET (table_url self) (headers self)
    {[ "importID" := PStr ("eq." +:+ import_id);
       "select" := PStr "*";
       "limit" := PInt limit;
       "offset" := PInt offset ]} None.

(** [get_all_metrics] *)
Definition page_request (self : repository) (limit offset : Z) : request :=
  mkRequest GET (table_url self) (headers self)
    {[ "select" := PStr "*";
       "limit" := PInt limit;
       "offset" := PInt offset ]} None.

(** [get_metrics_by_score_range] *)
Definition range_request (self : repository) (score_field : string)
    (min_score max_score : Z) : request :=
  mkRequest GET (table_url self) (headers self)
    (score_range_params score_field min_score max_score) None.

(** The count request of [get_metrics_summary]. *)
Definition count_request (self : repository) : request :=
  mkRequest GET (table_url self) (headers self)
    {[ "select" := PStr "count"; "count" := PStr "exact" ]} None.

(** Booleans and exact integers, told apart. *)
Definition is_bool (v : pyval) : bool :=
  match v with PBool _ => true | _ => false end.

Definition is_exact_int (v : pyval) : bool :=
  match v with PInt _ => true | _ => false end.

(** What a list method returns for the outcome of its request: the
    decoded body on status 200, the empty list otherwise. *)
Definition listing (o : res response) : pyval :=
  match o with
  | Ret r =>
      if status_code r =? 200 then default (PList []) (json_body r) else PList []
  | Raise _ => PList []
  end.

(** The records of one repository, and the rows the data model admits:
    a string [repoID] and five score cells. *)
Definition has_repo (repo_id : string) (row : gmap string pyval) : bool :=
  match row !! "repoID" with
  | Some (PStr r) => String.eqb r repo_id
  | _ => false
  end.

Definition rows_of_repo (repo_id : string) (t : RefStore.table) : RefStore.table :=
  List.filter (has_repo repo_id) t.

Definition is_metric_row (row : gmap string pyval) : bool :=
  match row !! "repoID" with
  | Some (PStr _) => is_metric_record (PDict row)
  | _ => false
  end.

(** The value of a decimal numeral read from the left, after the digits
    already read are worth [acc]. *)
Fixpoint digits_value (acc : Z) (d : Decimal.uint) : Z :=
  match d with
  | Decimal.Nil => acc
  | Decimal.D0 d' => digits_value (10 * acc + 0) d'
  | Decimal.D1 d' => digits_value (10 * acc + 1) d'
  | Decimal.D2 d' => digits_value (10 * acc + 2) d'
  | Decimal.D3 d' => digits_value (10 * acc + 3) d'
  | Decimal.D4 d' => digits_value (10 * acc + 4) d'
  | Decimal.D5 d' => digits_value (10 * acc + 5) d'
  | Decimal.D6 d' => digits_value (10 * acc + 6) d'
  | Decimal.D7 d' => digits_value (10 * acc + 7) d'
  | Decimal.D8 d' => digits_value (10 * acc + 8) d'
  | Decimal.D9 d' => digits_value (10 * acc + 9) d'
  end.

(** Neither white space nor a slash. *)
Definition is_plain (c : ascii) : bool :=
  negb (is_space c) && negb (Ascii.eqb c "/").

(** A request that reads from the metrics table: a [GET] of the table
    URL with the accessor's headers and no body. *)
Definition is_read (self : repository) (req : request) : Prop :=
  req_method req = GET ∧ req_url req = table_url self ∧
  req_headers req = headers self ∧ req_json req = None.

(** The request succeeded as far as a reading method is concerned: status
    200 and a body that decodes. *)
Definition succeeded (o : res response) : bool :=
  match o with
  | Ret r => (status_code r =? 200) &&
             match json_body r with Some _ => true | None => false end
  | Raise _ => false
  end.

(** The request succeeded as far as [create_metric] is concerned. *)
Definition created (o : res response) : bool :=
  match o with
  | Ret r => (status_code r =? 201) &&
             match json_body r with Some _ => true | None => false end
  | Raise _ => false
  end.

Definition has_import (import_id : string) (row : gmap string pyval) : bool :=
  match row !! "importID" with
  | Some (PStr i) => String.eqb i import_id
  | _ => false
  end.

Definition rows_of_import (import_id : string) (t : RefStore.table) : RefStore.table :=
  List.filter (has_import import_id) t.

(** The record has the composite key [(repo_id, import_id)]. *)
Definition has_key (repo_id import_id : string) (row : gmap string pyval) : bool :=
  has_repo repo_id row && has_import import_id row.

(** Both key columns hold strings. *)
Definition is_keyed_row (row : gmap string pyval) : bool :=
  match row !! "repoID", row !! "importID" with
  | Some (PStr _), Some (PStr _) => true
  | _, _ => false
  end.

(** The record holds an integer no larger than [max_score] in [field]. *)
Definition score_at_most (field : string) (max_score : Z)
    (row : gmap string pyval) : bool :=
  match row !! field with
  | Some (PInt z) => z <=? max_score
  | _ => false
  end.

(** The empty shapes of the two summaries. *)
Definition zero_summary : summary :=
  {| total_count := 0; average_scores := ∅ |}.

Definition zero_repo_summary (repo_id : string) : repo_summary :=
  {| repo_id := repo_id; metric_count := 0; repo_average_scores := ∅ |}.

(** A computation returns normally (raises nothing) from state [s]. *)
Definition returns {World A} (m : M World A) (s : state World) : Prop :=
  ∃ v, (m s).1 = Ret v.

Arguments FLOAT_OVERFLOW : simpl never.
Arguments average_scores_loop : simpl never.

(** ** Fixtures *)

Module Fixtures.

Definition repo : repository := init "https://project.supabase.co" "anon-key".

(** A fresh run: nothing requested, nothing logged. *)
Definition start {World} (w : World) : state World := mkState w [] [].

Definition row1 := RefStore.metric "r1" "i1" 3 4 None (Some 1) None.
Definition row2 := RefStore.metric "r1" "i2" 5 6 (Some 2) (Some 7) None.
Definition row3 := RefStore.metric "r2" "i1" 9 9 None (Some 20) None.

Definition t3 : RefStore.table := [row1; row2; row3].

(** 101 records of one repository. *)
Definition t101 : RefStore.table :=
  (λ n, RefStore.metric "r" ("i" +:+ str_of_int (Z.of_nat n)) 1 4 None None None)
    <$> seq 0 101.

Definition payload : gmap string pyval :=
  {[ "repoID" := PStr "r3"; "importID" := PStr "i1";
     "commitHistScore" := PInt 7; "complexityScore" := PInt 2 ]}.

Definition payload_no_import : gmap string pyval :=
  {[ "repoID" := PStr "r3";
     "commitHistScore" := PInt 7; "complexityScore" := PInt 2 ]}.

Definition payload_bool : gmap string pyval :=
  {[ "repoID" := PStr "r3"; "importID" := PStr "i1";
     "commitHistScore" := PBool true; "complexityScore" := PInt 2 ]}.

(** A count response announcing five rows. *)
Definition count_five : response :=
  mkResponse 200 (Some (PList [])) {[ "content-range" := "0-4/5" ]}.

(** The count response of the reference store for three rows. *)
Definition count_three : response :=
  mkResponse 200 (Some (PList [PDict {[ "count" := PInt 3 ]}]))
    {[ "content-range" := "0-2/3" ]}.

(** A count response that failed. *)
Definition count_failed : response := mkResponse 500 None ∅.

Definition page_of (rows : RefStore.table) : response :=
  mkResponse 200 (Some (PList (PDict <$> rows))) ∅.

(** A count response whose total is not a number. *)
Definition count_star : response :=
  mkResponse 200 (Some (PList [])) {[ "content-range" := "0-24/*" ]}.

(** Status 201 with an empty echo. *)
Definition created_empty : response := mkResponse 201 (Some (PList [])) ∅.

(** A payload with odd keys and an optional score that is not a number. *)
Definition payload_loose : gmap string pyval :=
  <["repoID" := PNone]> (<["importID" := PInt 3]>
    (<["commitHistScore" := PInt 7]> (<["complexityScore" := PBool false]>
       {[ "churnScore" := PStr "high" ]}))).

(** [row1] with a string where a score belongs. *)
Definition bad_row : gmap string pyval := <["churnScore" := PStr "high"]> row1.

(** A record whose scores are all null. *)
Definition null_row : gmap string pyval :=
  {[ "repoID" := PStr "r1"; "importID" := PStr "i3" ]}.

Definition row4 := RefStore.metric "r9" "i9" 1 2 None None None.

End Fixtures.

(** ** Proof support *)

Ltac run :=
  unfold try_except, requests_get, requests_post, requests_call, lift, raise,
    logger, mret, mbind, M_ret, M_bind, res_ret, res_mbind, res_bind; simpl.

(** *** The averaging loop on well-formed records *)

Lemma FLOAT_OVERFLOW_pos : 0 < FLOAT_OVERFLOW.
Proof. by vm_compute. Qed.

Lemma elem_of_score_fields f :
  f ∈ score_fields →
  f = "commitHistScore" ∨ f = "complexityScore" ∨ f = "churnScore" ∨
  f = "totalScore" ∨ f = "packageVersionScore".
Proof.
  unfold score_fields. rewrite !elem_of_cons, elem_of_nil. tauto.
Qed.

Lemma is_metric_record_score d f :
  is_metric_record (PDict d) = true → f ∈ score_fields → is_score (d !! f) = true.
Proof.
  simpl. rewrite !andb_true_iff. intros (H1 & H2 & H3 & H4 & H5 & _) Hf.
  apply elem_of_score_fields in Hf as [-> | [-> | [-> | [-> | ->]]]]; done.
Qed.

Lemma valid_scores_of_records f ms :
  f ∈ score_fields → forallb is_metric_record ms = true →
  valid_scores_of f ms = Ret (PInt <$> non_null_scores f ms).
Proof.
  intros Hf. induction ms as [|m ms IH]; simpl; [done|].
  rewrite andb_true_iff. intros [Hm Hms]. specialize (IH Hms).
  destruct m as [| | | | | |d]; try discriminate.
  pose proof (is_metric_record_score d f Hm Hf) as Hs.
  unfold non_null_scores in *. simpl.
  unfold mbind, res_mbind, res_bind. simpl.
  destruct (d !! f) as [[]|]; simpl in *; try discriminate; rewrite IH; done.
Qed.

Lemma non_null_scores_bounded f ms :
  f ∈ score_fields → forallb is_metric_record ms = true →
  Forall (λ z, Z.abs z < FLOAT_OVERFLOW) (non_null_scores f ms).
Proof.
  intros Hf. induction ms as [|m ms IH]; simpl; [constructor|].
  rewrite andb_true_iff. intros [Hm Hms]. specialize (IH Hms).
  destruct m as [| | | | | |d]; try discriminate.
  pose proof (is_metric_record_score d f Hm Hf) as Hs.
  unfold non_null_scores in *. simpl.
  destruct (d !! f) as [[]|]; simpl in *; try done.
  constructor; [by apply Z.ltb_lt|done].
Qed.

Lemma sum_from_ints a vs :
  sum_from (PInt a) (PInt <$> vs) = Ret (PInt (a + sumZ vs)).
Proof.
  revert a. induction vs as [|v vs IH]; intros a; simpl.
  - by rewrite Z.add_0_r.
  - rewrite IH. by rewrite Z.add_assoc.
Qed.

Lemma sumZ_bounded B vs :
  Forall (λ z, Z.abs z < B) vs → Z.abs (sumZ vs) ≤ (B - 1) * Z.of_nat (length vs).
Proof.
  induction 1 as [|v vs Hv _ IH]; simpl; [lia|].
  pose proof (Z.abs_triangle v (sumZ vs)). lia.
Qed.

Lemma average_of_records f ms :
  f ∈ score_fields → forallb is_metric_record ms = true →
  average_of f (PList ms) = Ret (expected_average f ms).
Proof.
  intros Hf Hms. unfold average_of, expected_average. simpl.
  unfold mbind, res_mbind, res_bind.
  rewrite (valid_scores_of_records f ms Hf Hms).
  pose proof (non_null_scores_bounded f ms Hf Hms) as Hb.
  destruct (non_null_scores f ms) as [|v vs] eqn:Hvs; [done|].
  remember (v :: vs) as l eqn:Hl.
  assert (Hlen : 0 < Z.of_nat (length l)) by (subst l; simpl; lia).
  unfold py_sum. rewrite sum_from_ints, Z.add_0_l.
  unfold py_truediv. rewrite length_fmap.
  destruct (Z.eqb_spec (Z.of_nat (length l)) 0) as [?|_]; [lia|].
  pose proof (sumZ_bounded _ _ Hb) as Hsum.
  pose proof FLOAT_OVERFLOW_pos.
  destruct (Z.leb_spec (FLOAT_OVERFLOW * Z.abs (Z.of_nat (length l)))
              (Z.abs (sumZ l))) as [Hle|_]; [|by subst l].
  rewrite Z.abs_eq in Hle by lia. nia.
Qed.

Lemma average_scores_loop_cons field fields metrics avg_scores :
  average_scores_loop (field :: fields) metrics avg_scores =
  a ← average_of field metrics;
  average_scores_loop fields metrics (<["avg_" +:+ field := a]> avg_scores).
Proof. reflexivity. Qed.

Lemma average_scores_loop_records ms :
  ms ≠ [] → forallb is_metric_record ms = true →
  average_scores_loop score_fields (PList ms) ∅ = Ret (expected_averages ms).
Proof.
  intros Hne Hms. unfold expected_averages.
  destruct ms as [|m ms']; [done|].
  remember (m :: ms') as ms eqn:Heq. clear Hne Heq m ms'.
  unfold score_fields at 1.
  repeat (rewrite average_scores_loop_cons; unfold mbind, res_mbind, res_bind;
          rewrite average_of_records
            by (done || (unfold score_fields; rewrite !elem_of_cons; tauto))).
  (* both sides are the same five insertions, in opposite orders *)
  reflexivity.
Qed.

Lemma expected_averages_lookup ms f :
  ms ≠ [] → f ∈ score_fields →
  expected_averages ms !! ("avg_" +:+ f) = Some (expected_average f ms).
Proof.
  intros Hne Hf. unfold expected_averages. destruct ms as [|m ms']; [done|].
  remember (m :: ms') as ms eqn:Heq. clear Hne Heq m ms'.
  unfold score_fields. simpl.
  apply elem_of_score_fields in Hf as [-> | [-> | [-> | [-> | ->]]]];
    repeat (rewrite lookup_insert; case_decide; [done || discriminate|]); done.
Qed.

Section Facts.

Context {World : Type}.
Variable send : World → request → res response * World.
Variable self : repository.

Lemma get_metrics_by_score_range_invalid score_field min_score max_score s :
  score_field ∉ score_fields →
  get_metrics_by_score_range send self score_field min_score max_score s =
  (Ret (PList []),
   mkState (world s) (trace s)
     (log s ++ [(ERROR, "Error retrieving metrics by score range: ")])).
Proof.
  intros Hf. unfold get_metrics_by_score_range. run.
  rewrite bool_decide_eq_false_2 by done. reflexivity.
Qed.

Lemma elem_of_required_fields f :
  f ∈ required_fields →
  f = "repoID" ∨ f = "importID" ∨ f = "commitHistScore" ∨ f = "complexityScore".
Proof.
  unfold required_fields. rewrite !elem_of_cons, elem_of_nil. tauto.
Qed.

(** Validation passed: the method goes on to the network call. *)
Lemma create_metric_sends d s c1 c2 :
  is_Some (d !! "repoID") → is_Some (d !! "importID") →
  d !! "commitHistScore" = Some c1 → d !! "complexityScore" = Some c2 →
  isinstance_int c1 = true → isinstance_int c2 = true →
  create_metric send self d s =
  let '(o, w') := send (world s) (post_request self d) in
  let s' := mkState w' (trace s ++ [post_request self d]) (log s) in
  match o with
  | Ret response =>
      if status_code response =? 201 then
        match json_body response with
        | Some created_metric =>
            let s'' := mkState w' (trace s') (log s' ++ [(INFO, "Created metric: ")]) in
            match (if isinstance_list created_metric
                   then getitem_0 created_metric else Ret created_metric) with
            | Ret v => (Ret v, s'')
            | Raise _ =>
                (Ret PNone,
                 mkState w' (trace s') (log s'' ++ [(ERROR, "Error creating metric: ")]))
            end
        | None =>
            (Ret PNone,
             mkState w' (trace s') (log s' ++ [(ERROR, "Error creating metric: ")]))
        end
      else
        (Ret PNone,
         mkState w' (trace s') (log s' ++ [(ERROR, "Failed to create metric: ")]))
  | Raise _ =>
      (Ret PNone,
       mkState w' (trace s') (log s' ++ [(ERROR, "Error creating metric: ")]))
  end.
Proof.
  intros [r Hr] [i Hi] Hc1 Hc2 Hi1 Hi2.
  unfold create_metric, post_request. run.
  rewrite Hr, Hi, Hc1, Hc2. simpl. rewrite Hi1, Hi2. simpl.
  destruct (send (world s) _) as [[response|e] w']; simpl; [|reflexivity].
  destruct (status_code response =? 201); simpl; [|reflexivity].
  unfold response_json. destruct (json_body response) as [v|]; simpl; [|reflexivity].
  destruct (isinstance_list v); simpl; [|reflexivity].
  destruct (getitem_0 v); reflexivity.
Qed.

(** C3. A payload that lacks one of the four required fields, or whose
    [commitHistScore] or [complexityScore] is present but not an [int]
    instance, makes [create_metric] return [None]; no request is issued and
    the world is left as it was. *)
Theorem create_metric_rejects_invalid_payload d s :
  (∃ f, f ∈ required_fields ∧ d !! f = None) ∨
  (∃ v, d !! "commitHistScore" = Some v ∧ isinstance_int v = false) ∨
  (∃ v, d !! "complexityScore" = Some v ∧ isinstance_int v = false) →
  let r := create_metric send self d s in
  r.1 = Ret PNone ∧ trace r.2 = trace s ∧ world r.2 = world s.
Proof.
  intros H. unfold create_metric. run.
  destruct (d !! "repoID") as [r|] eqn:Hr; simpl; [|done].
  destruct (d !! "importID") as [i|] eqn:Hi; simpl; [|done].
  destruct (d !! "commitHistScore") as [c1|] eqn:Hc1; simpl; [|done].
  destruct (d !! "complexityScore") as [c2|] eqn:Hc2; simpl; [|done].
  destruct (isinstance_int c1) eqn:Hi1; simpl; [|done].
  destruct (isinstance_int c2) eqn:Hi2; simpl; [|done].
  exfalso. destruct H as [(f & Hf & Hnone)|[(v & Hv & Hn)|(v & Hv & Hn)]].
  - apply elem_of_required_fields in Hf as [-> | [-> | [-> | ->]]]; congruence.
  - congruence.
  - congruence.
Qed.

(** C4. For a payload with the four required fields whose two scores are
    [int] instances, [create_metric] issues exactly one request, the [POST]
    of the payload; on status 201 it returns the first element of an echoed
    array, or the echoed value itself when that is not an array; on any
    other status it returns [None]. *)
Theorem create_metric_posts_once_and_returns_echo d s c1 c2 :
  is_Some (d !! "repoID") → is_Some (d !! "importID") →
  d !! "commitHistScore" = Some c1 → d !! "complexityScore" = Some c2 →
  isinstance_int c1 = true → isinstance_int c2 = true →
  let r := create_metric send self d s in
  let o := send (world s) (post_request self d) in
  req_method (post_request self d) = POST ∧
  req_json (post_request self d) = Some d ∧
  trace r.2 = trace s ++ [post_request self d] ∧
  world r.2 = o.2 ∧
  (∀ resp x xs, o.1 = Ret resp → status_code resp = 201 →
     json_body resp = Some (PList (x :: xs)) → r.1 = Ret x) ∧
  (∀ resp v, o.1 = Ret resp → status_code resp = 201 →
     json_body resp = Some v → isinstance_list v = false → r.1 = Ret v) ∧
  (∀ resp, o.1 = Ret resp → status_code resp ≠ 201 → r.1 = Ret PNone).
Proof.
  intros Hr Hi Hc1 Hc2 Hi1 Hi2. simpl.
  rewrite (create_metric_sends d s c1 c2) by done.
  destruct (send (world s) (post_request self d)) as [o w'] eqn:Hsend. simpl.
  split; [done|]. split; [done|].
  assert (Hst : ∀ resp, status_code resp ≠ 201 → (status_code resp =? 201) = false)
    by (intros; by apply Z.eqb_neq).
  destruct o as [response|e]; simpl.
  - destruct (status_code response =? 201) eqn:Hs.
    + apply Z.eqb_eq in Hs.
      destruct (json_body response) as [v|] eqn:Hj.
      * destruct (isinstance_list v) eqn:Hl.
        -- destruct (getitem_0 v) eqn:Hg; simpl;
             (split; [done|]; split; [done|]);
             (split; [intros resp x xs [= <-] _ Hb; rewrite Hj in Hb;
                      injection Hb as ->; simpl in Hg; congruence|]);
             (split; [intros resp v' [= <-] _ Hb Hl'; congruence|]);
             intros resp [= <-] Hne; congruence.
        -- simpl. split; [done|]. split; [done|].
           split; [intros resp x xs [= <-] _ Hb; rewrite Hj in Hb;
                   injection Hb as ->; discriminate|].
           split; [intros resp v' [= <-] _ Hb _; congruence|].
           intros resp [= <-] Hne; congruence.
      * simpl. split; [done|]. split; [done|].
        split; [intros resp x xs [= <-] _ Hb; congruence|].
        split; [intros resp v' [= <-] _ Hb _; congruence|].
        intros resp [= <-] Hne; congruence.
    + simpl. split; [done|]. split; [done|].
      apply Z.eqb_neq in Hs.
      split; [intros resp x xs [= <-] ? _; congruence|].
      split; [intros resp v' [= <-] ? _ _; congruence|].
      by intros resp [= <-] _.
  - simpl. split; [done|]. split; [done|]. repeat split; intros; discriminate.
Qed.

(** C9. [True] and [False] pass the integer validation of
    [create_metric]: a payload with the four required fields whose two
    scores are each a bool or an integer, at least one of them a bool, is
    posted to the store. *)
Theorem create_metric_accepts_bool_scores d s c1 c2 :
  is_Some (d !! "repoID") → is_Some (d !! "importID") →
  d !! "commitHistScore" = Some c1 → d !! "complexityScore" = Some c2 →
  is_bool c1 || is_exact_int c1 = true →
  is_bool c2 || is_exact_int c2 = true →
  is_bool c1 || is_bool c2 = true →
  let r := create_metric send self d s in
  isinstance_int c1 = true ∧ isinstance_int c2 = true ∧
  trace r.2 = trace s ++ [post_request self d] ∧
  world r.2 = (send (world s) (post_request self d)).2.
Proof.
  intros Hr Hi Hc1 Hc2 H1 H2 _. simpl.
  assert (Hi1 : isinstance_int c1 = true) by (by destruct c1).
  assert (Hi2 : isinstance_int c2 = true) by (by destruct c2).
  rewrite (create_metric_sends d s c1 c2) by done.
  destruct (send (world s) (post_request self d)) as [[response|e] w']; simpl; [|done].
  destruct (status_code response =? 201); simpl; [|done].
  destruct (json_body response) as [v|]; simpl; [|done].
  destruct (isinstance_list v); simpl; [|done].
  by destruct (getitem_0 v).
Qed.

(** C7. With a [score_field] outside the five score fields,
    [get_metrics_by_score_range] returns [[]] and issues no request. *)
Theorem get_metrics_by_score_range_invalid_field score_field min_score max_score s :
  score_field ∉ score_fields →
  let r := get_metrics_by_score_range send self score_field min_score max_score s in
  r.1 = Ret (PList []) ∧ trace r.2 = trace s ∧ world r.2 = world s.
Proof.
  intros Hf. simpl. by rewrite get_metrics_by_score_range_invalid.
Qed.

(** C5. [get_metric_by_keys] issues one [GET] that filters by equality
    on [repoID] and on [importID]; it returns the first element when the
    store answers 200 with a non-empty collection, and [None] when the
    collection is empty, when the status is not 200, when the body is not
    JSON and when the transport raises. *)
Theorem get_metric_by_keys_first_match_or_none repo_id import_id s :
  let r := get_metric_by_keys send self repo_id import_id s in
  let q := keys_request self repo_id import_id in
  let o := send (world s) q in
  req_params q !! "repoID" = Some (PStr ("eq." +:+ repo_id)) ∧
  req_params q !! "importID" = Some (PStr ("eq." +:+ import_id)) ∧
  trace r.2 = trace s ++ [q] ∧
  (∀ resp x xs, o.1 = Ret resp → status_code resp = 200 →
     json_body resp = Some (PList (x :: xs)) → r.1 = Ret x) ∧
  (∀ resp, o.1 = Ret resp → status_code resp = 200 →
     json_body resp = Some (PList []) → r.1 = Ret PNone) ∧
  (∀ resp, o.1 = Ret resp → status_code resp ≠ 200 → r.1 = Ret PNone) ∧
  (∀ resp, o.1 = Ret resp → json_body resp = None → r.1 = Ret PNone) ∧
  (∀ e, o.1 = Raise e → r.1 = Ret PNone).
Proof.
  simpl. split; [done|]. split; [done|].
  unfold get_metric_by_keys. run. fold (keys_request self repo_id import_id).
  destruct (send (world s) (keys_request self repo_id import_id))
    as [[response|e] w'] eqn:Hsend; simpl.
  - unfold response_json.
    destruct (status_code response =? 200) eqn:Hs; simpl.
    + destruct (json_body response) as [data|] eqn:Hj; simpl.
      * destruct (truthy data) eqn:Ht; simpl.
        -- destruct (getitem_0 data) eqn:Hg; simpl;
             (split; [done|]);
             (split; [intros resp x xs [= <-] _ Hb; rewrite Hj in Hb;
                      injection Hb as ->; simpl in Hg; congruence|]);
             (split; [intros resp [= <-] _ Hb; rewrite Hj in Hb;
                      injection Hb as ->; discriminate|]);
             (split; [intros resp [= <-] Hne; apply Z.eqb_eq in Hs; congruence|]);
             (split; [intros resp [= <-] Hb; congruence|]);
             intros e' [=].
        -- split; [done|].
           split; [intros resp x xs [= <-] _ Hb; rewrite Hj in Hb;
                   injection Hb as ->; discriminate|].
           split; [done|].
           split; [done|].
           split; [done|].
           intros e' [=].
      * split; [done|].
        split; [intros resp x xs [= <-] _ Hb; congruence|].
        split; [done|]. split; [done|]. split; [done|]. intros e' [=].
    + apply Z.eqb_neq in Hs. split; [done|].
      split; [intros resp x xs [= <-] ? _; congruence|].
      split; [done|]. split; [done|]. split; [done|]. intros e' [=].
  - split; [done|]. repeat split; intros; try discriminate; done.
Qed.

(** The later [score_field] entry of the [params] display replaces the
    earlier one: only the upper bound is left in the dict. *)
Lemma score_range_params_overwritten score_field min_score max_score :
  score_range_params score_field min_score max_score =
  <[score_field := PStr ("lte." +:+ str_of_int max_score)]>
    {[ "select" := PStr "*" ]}.
Proof. unfold score_range_params. by rewrite insert_insert_eq. Qed.

Lemma score_range_params_lookup score_field min_score max_score :
  score_range_params score_field min_score max_score !! score_field =
  Some (PStr ("lte." +:+ str_of_int max_score)).
Proof. rewrite score_range_params_overwritten. apply lookup_insert_eq. Qed.

(** *** The list methods *)

Lemma get_all_metrics_run limit offset s :
  let r := get_all_metrics send self limit offset s in
  let o := send (world s) (page_request self limit offset) in
  r.1 = Ret (listing o.1) ∧
  trace r.2 = trace s ++ [page_request self limit offset] ∧
  world r.2 = o.2.
Proof.
  simpl. unfold get_all_metrics. run. fold (page_request self limit offset).
  destruct (send (world s) _) as [[response|e] w']; simpl; [|done].
  destruct (status_code response =? 200); simpl; [|done].
  unfold response_json. by destruct (json_body response).
Qed.

Lemma get_metrics_by_repo_run repo_id limit offset s :
  let r := get_metrics_by_repo send self repo_id limit offset s in
  let o := send (world s) (repo_request self repo_id limit offset) in
  r.1 = Ret (listing o.1) ∧
  trace r.2 = trace s ++ [repo_request self repo_id limit offset] ∧
  world r.2 = o.2.
Proof.
  simpl. unfold get_metrics_by_repo. run.
  fold (repo_request self repo_id limit offset).
  destruct (send (world s) _) as [[response|e] w']; simpl; [|done].
  destruct (status_code response =? 200); simpl; [|done].
  unfold response_json. by destruct (json_body response).
Qed.

Lemma get_metrics_by_import_run import_id limit offset s :
  let r := get_metrics_by_import send self import_id limit offset s in
  let o := send (world s) (import_request self import_id limit offset) in
  r.1 = Ret (listing o.1) ∧
  trace r.2 = trace s ++ [import_request self import_id limit offset] ∧
  world r.2 = o.2.
Proof.
  simpl. unfold get_metrics_by_import. run.
  fold (import_request self import_id limit offset).
  destruct (send (world s) _) as [[response|e] w']; simpl; [|done].
  destruct (status_code response =? 200); simpl; [|done].
  unfold response_json. by destruct (json_body response).
Qed.

Lemma get_metrics_by_score_range_run score_field min_score max_score s :
  score_field ∈ score_fields →
  let r := get_metrics_by_score_range send self score_field min_score max_score s in
  let o := send (world s) (range_request self score_field min_score max_score) in
  r.1 = Ret (listing o.1) ∧
  trace r.2 = trace s ++ [range_request self score_field min_score max_score] ∧
  world r.2 = o.2.
Proof.
  intros Hf. simpl. unfold get_metrics_by_score_range. run.
  rewrite bool_decide_eq_true_2 by done. simpl.
  fold (range_request self score_field min_score max_score).
  destruct (send (world s) _) as [[response|e] w']; simpl; [|done].
  destruct (status_code response =? 200); simpl; [|done].
  unfold response_json. by destruct (json_body response).
Qed.

(** *** The summaries *)

Lemma count_of_response_failed cr :
  status_code cr ≠ 200 ∨ resp_headers cr !! "content-range" = None →
  count_of_response cr = Ret 0.
Proof.
  unfold count_of_response. intros [Hs|Hh].
  - apply Z.eqb_neq in Hs. by rewrite Hs.
  - rewrite Hh. by destruct (status_code cr =? 200).
Qed.

(** The straight-line part of [get_metrics_summary] once both calls have
    answered. *)
Lemma get_metrics_summary_fetched s cr w1 n ms s2 :
  send (world s) (count_request self) = (Ret cr, w1) →
  count_of_response cr = Ret n →
  get_all_metrics send self 1000 0
    (mkState w1 (trace s ++ [count_request self]) (log s)) = (Ret (PList ms), s2) →
  forallb is_metric_record ms = true →
  get_metrics_summary send self s =
  (Ret {| total_count := n; average_scores := expected_averages ms |}, s2).
Proof.
  intros Hsend Hcount Hfetch Hms.
  unfold get_metrics_summary. run. fold (count_request self).
  rewrite Hsend. simpl. rewrite Hcount. simpl.
  unfold DEFAULT_OFFSET. rewrite Hfetch. simpl.
  destruct ms as [|m ms']; [done|].
  rewrite average_scores_loop_records by done. done.
Qed.

(** C6. When the count phase of [get_metrics_summary] yields [n] and the
    fetch [get_all_metrics(limit=1000)] that follows returns the records
    [ms], the method returns [total_count = n] with [average_scores] empty
    for no record and otherwise mapping each [avg_<field>] to the mean of
    the non-null values of the field, or to [None] when it has none; the
    fetch is the request with [limit = 1000] and [offset = 0]. *)
Theorem get_metrics_summary_averages s cr w1 n ms s2 :
  send (world s) (count_request self) = (Ret cr, w1) →
  count_of_response cr = Ret n →
  get_all_metrics send self 1000 0
    (mkState w1 (trace s ++ [count_request self]) (log s)) = (Ret (PList ms), s2) →
  forallb is_metric_record ms = true →
  let r := get_metrics_summary send self s in
  ∃ avg,
    r = (Ret {| total_count := n; average_scores := avg |}, s2) ∧
    trace s2 = trace s ++ [count_request self; page_request self 1000 0] ∧
    (ms = [] → avg = ∅) ∧
    (ms ≠ [] → ∀ f, f ∈ score_fields →
       avg !! ("avg_" +:+ f) =
       Some (match non_null_scores f ms with
             | [] => PNone
             | vs => PFloat (mean vs)
             end)) ∧
    (ms ≠ [] → ∀ k, is_Some (avg !! k) → ∃ f, f ∈ score_fields ∧ k = "avg_" +:+ f).
Proof.
  intros Hsend Hcount Hfetch Hms. simpl.
  exists (expected_averages ms).
  pose proof (get_all_metrics_run 1000 0
                (mkState w1 (trace s ++ [count_request self]) (log s))) as Hrun.
  simpl in Hrun. rewrite Hfetch in Hrun. destruct Hrun as (_ & Htrace & _).
  split; [|split; [|split; [|split]]].
  - by apply (get_metrics_summary_fetched s cr w1 n ms s2).
  - simpl in Htrace. rewrite Htrace. by rewrite <- app_assoc.
  - by intros ->.
  - intros Hne f Hf. by rewrite expected_averages_lookup.
  - intros Hne k [v Hk]. unfold expected_averages in Hk.
    destruct ms as [|m ms']; [done|].
    apply elem_of_list_to_map_2 in Hk.
    apply list_elem_of_fmap in Hk as (f & [= -> ->] & Hf). eauto.
Qed.

(** C10. When the count request of [get_metrics_summary] answers with a
    status other than 200, or without a [content-range] header, while the
    fetch answers 200 with a non-empty list of records, the method returns
    [total_count = 0] together with the averages of the fetched records:
    [average_scores] is not empty and maps each of the five [avg_<field>]
    to the mean of the non-null values of the field, or to [None] when
    there is none. *)
Theorem get_metrics_summary_count_failure_keeps_averages s cr w1 fr w2 ms :
  send (world s) (count_request self) = (Ret cr, w1) →
  status_code cr ≠ 200 ∨ resp_headers cr !! "content-range" = None →
  send w1 (page_request self 1000 0) = (Ret fr, w2) →
  status_code fr = 200 → json_body fr = Some (PList ms) →
  ms ≠ [] → forallb is_metric_record ms = true →
  (get_metrics_summary send self s).1 =
    Ret {| total_count := 0; average_scores := expected_averages ms |} ∧
  expected_averages ms ≠ ∅ ∧
  ∀ f, f ∈ score_fields →
    expected_averages ms !! ("avg_" +:+ f) =
    Some (match non_null_scores f ms with
          | [] => PNone
          | vs => PFloat (mean vs)
          end).
Proof.
  intros Hsend Hfail Hsend2 Hst Hbody Hne Hms.
  pose proof (get_all_metrics_run 1000 0
                (mkState w1 (trace s ++ [count_request self]) (log s))) as Hrun.
  simpl in Hrun. rewrite Hsend2 in Hrun. simpl in Hrun.
  rewrite Hst, Hbody in Hrun. simpl in Hrun. destruct Hrun as (Hres & _).
  destruct (get_all_metrics send self 1000 0 _) as [v s2] eqn:Hfetch.
  simpl in Hres. subst v.
  rewrite (get_metrics_summary_fetched s cr w1 0 ms s2)
    by (done || by apply count_of_response_failed).
  assert (Hall : ∀ f, f ∈ score_fields →
                      expected_averages ms !! ("avg_" +:+ f) =
                      Some (expected_average f ms)).
  { intros f Hf. by rewrite expected_averages_lookup. }
  split; [done|]. split; [|exact Hall].
  intros Hempty. specialize (Hall "totalScore").
  rewrite Hempty, lookup_empty in Hall. discriminate Hall.
  unfold score_fields. rewrite !elem_of_cons. tauto.
Qed.

(** The straight-line part of [get_repo_metrics_summary] once its fetch
    has answered with records. *)
Lemma get_repo_metrics_summary_fetched repo_id s resp w' ms :
  send (world s) (repo_request self repo_id 100 0) = (Ret resp, w') →
  status_code resp = 200 → json_body resp = Some (PList ms) →
  forallb is_metric_record ms = true →
  get_repo_metrics_summary send self repo_id s =
  (Ret {| repo_id := repo_id;
          metric_count := Z.of_nat (length ms);
          repo_average_scores := expected_averages ms |},
   mkState w' (trace s ++ [repo_request self repo_id 100 0]) (log s)).
Proof.
  intros Hsend Hst Hbody Hms.
  unfold get_repo_metrics_summary, get_metrics_by_repo, DEFAULT_LIMIT, DEFAULT_OFFSET.
  run. fold (repo_request self repo_id 100 0).
  rewrite Hsend. simpl. rewrite Hst. simpl.
  unfold response_json. rewrite Hbody. simpl.
  destruct ms as [|m ms']; [done|]. simpl negb. cbv iota.
  rewrite average_scores_loop_records by done. done.
Qed.

(** *** Nothing escapes a method *)

Lemma try_except_returns {A} (body : M World A) handler s :
  (∀ e s', returns (handler e) s') → returns (try_except body handler) s.
Proof.
  intros Hh. unfold returns, try_except.
  destruct (body s) as [[a|e] s']; [by exists a|]. apply Hh.
Qed.

Ltac absorbed :=
  apply try_except_returns; intros; eexists; reflexivity.

Lemma create_metric_returns d s : returns (create_metric send self d) s.
Proof. unfold create_metric. absorbed. Qed.

Lemma get_metric_by_keys_returns repo_id import_id s :
  returns (get_metric_by_keys send self repo_id import_id) s.
Proof. unfold get_metric_by_keys. absorbed. Qed.

Lemma get_metrics_by_repo_returns repo_id limit offset s :
  returns (get_metrics_by_repo send self repo_id limit offset) s.
Proof. unfold get_metrics_by_repo. absorbed. Qed.

Lemma get_metrics_by_import_returns import_id limit offset s :
  returns (get_metrics_by_import send self import_id limit offset) s.
Proof. unfold get_metrics_by_import. absorbed. Qed.

Lemma get_all_metrics_returns limit offset s :
  returns (get_all_metrics send self limit offset) s.
Proof. unfold get_all_metrics. absorbed. Qed.

Lemma get_metrics_by_score_range_returns score_field min_score max_score s :
  returns (get_metrics_by_score_range send self score_field min_score max_score) s.
Proof. unfold get_metrics_by_score_range. absorbed. Qed.

Lemma get_metrics_summary_returns s : returns (get_metrics_summary send self) s.
Proof. unfold get_metrics_summary. absorbed. Qed.

Lemma get_repo_metrics_summary_returns repo_id s :
  returns (get_repo_metrics_summary send self repo_id) s.
Proof. unfold get_repo_metrics_summary. absorbed. Qed.

(** What each method returns when the transport raises on its request. *)

Lemma create_metric_transport_error d s e :
  (send (world s) (post_request self d)).1 = Raise e →
  (create_metric send self d s).1 = Ret PNone.
Proof.
  intros Hsend. unfold create_metric. run. fold (post_request self d).
  destruct (d !! "repoID"); simpl; [|done].
  destruct (d !! "importID"); simpl; [|done].
  destruct (d !! "commitHistScore") as [c1|]; simpl; [|done].
  destruct (d !! "complexityScore") as [c2|]; simpl; [|done].
  destruct (isinstance_int c1); simpl; [|done].
  destruct (isinstance_int c2); simpl; [|done].
  destruct (send (world s) (post_request self d)) as [o w']. simpl in Hsend.
  by subst o.
Qed.

Lemma get_metric_by_keys_transport_error repo_id import_id s e :
  (send (world s) (keys_request self repo_id import_id)).1 = Raise e →
  (get_metric_by_keys send self repo_id import_id s).1 = Ret PNone.
Proof.
  intros Hsend. unfold get_metric_by_keys. run.
  fold (keys_request self repo_id import_id).
  destruct (send (world s) _) as [o w']. simpl in Hsend. by subst o.
Qed.

Lemma get_metrics_by_score_range_transport_error score_field min_score max_score s e :
  (send (world s) (range_request self score_field min_score max_score)).1 = Raise e →
  (get_metrics_by_score_range send self score_field min_score max_score s).1 =
  Ret (PList []).
Proof.
  intros Hsend.
  destruct (decide (score_field ∈ score_fields)) as [Hf|Hf].
  - destruct (get_metrics_by_score_range_run score_field min_score max_score s Hf)
      as (-> & _). by rewrite Hsend.
  - by rewrite get_metrics_by_score_range_invalid.
Qed.

Lemma get_metrics_summary_count_error s e :
  (send (world s) (count_request self)).1 = Raise e →
  (get_metrics_summary send self s).1 = Ret zero_summary.
Proof.
  intros Hsend. unfold get_metrics_summary. run. fold (count_request self).
  destruct (send (world s) _) as [o w']. simpl in Hsend. by subst o.
Qed.

Lemma get_metrics_summary_fetch_error s cr w1 n e :
  send (world s) (count_request self) = (Ret cr, w1) →
  count_of_response cr = Ret n →
  (send w1 (page_request self 1000 0)).1 = Raise e →
  (get_metrics_summary send self s).1 =
  Ret {| total_count := n; average_scores := ∅ |}.
Proof.
  intros Hsend Hcount Hfetch.
  pose proof (get_all_metrics_run 1000 0
                (mkState w1 (trace s ++ [count_request self]) (log s))) as Hrun.
  simpl in Hrun. rewrite Hfetch in Hrun. simpl in Hrun. destruct Hrun as (Hres & _).
  unfold get_metrics_summary. run. fold (count_request self).
  rewrite Hsend. simpl. rewrite Hcount. simpl. unfold DEFAULT_OFFSET.
  destruct (get_all_metrics send self 1000 0 _) as [v s2].
  simpl in Hres. by subst v.
Qed.

Lemma get_repo_metrics_summary_transport_error repo_id s e :
  (send (world s) (repo_request self repo_id 100 0)).1 = Raise e →
  (get_repo_metrics_summary send self repo_id s).1 = Ret (zero_repo_summary repo_id).
Proof.
  intros Hsend.
  pose proof (get_metrics_by_repo_run repo_id 100 0 s) as Hrun.
  simpl in Hrun. rewrite Hsend in Hrun. simpl in Hrun. destruct Hrun as (Hres & _).
  unfold get_repo_metrics_summary, DEFAULT_LIMIT, DEFAULT_OFFSET. run.
  destruct (get_metrics_by_repo send self repo_id 100 0 s) as [v s2].
  simpl in Hres. by subst v.
Qed.

(** What each method returns when its request fails: the transport raises,
    the status is not the success status, or the body does not decode. *)

Lemma listing_failed o : succeeded o = false → listing o = PList [].
Proof.
  destruct o as [r|e]; simpl; [|done].
  destruct (status_code r =? 200); simpl; [|done].
  by destruct (json_body r).
Qed.

Lemma create_metric_failed d s :
  created (send (world s) (post_request self d)).1 = false →
  (create_metric send self d s).1 = Ret PNone.
Proof.
  intros Hsend. unfold create_metric. run. fold (post_request self d).
  destruct (d !! "repoID"); simpl; [|done].
  destruct (d !! "importID"); simpl; [|done].
  destruct (d !! "commitHistScore") as [c1|]; simpl; [|done].
  destruct (d !! "complexityScore") as [c2|]; simpl; [|done].
  destruct (isinstance_int c1); simpl; [|done].
  destruct (isinstance_int c2); simpl; [|done].
  destruct (send (world s) (post_request self d)) as [[rsp|e] w']; simpl in *;
    [|done].
  destruct (status_code rsp =? 201); simpl in *; [|done].
  unfold response_json. by destruct (json_body rsp).
Qed.

Lemma get_metric_by_keys_failed repo_id import_id s :
  succeeded (send (world s) (keys_request self repo_id import_id)).1 = false →
  (get_metric_by_keys send self repo_id import_id s).1 = Ret PNone.
Proof.
  intros Hsend. unfold get_metric_by_keys. run.
  fold (keys_request self repo_id import_id).
  destruct (send (world s) _) as [[rsp|e] w']; simpl in *; [|done].
  destruct (status_code rsp =? 200); simpl in *; [|done].
  unfold response_json. by destruct (json_body rsp).
Qed.

Lemma get_metrics_by_score_range_failed score_field min_score max_score s :
  succeeded (send (world s)
               (range_request self score_field min_score max_score)).1 = false →
  (get_metrics_by_score_range send self score_field min_score max_score s).1 =
  Ret (PList []).
Proof.
  intros Hsend.
  destruct (decide (score_field ∈ score_fields)) as [Hf|Hf].
  - destruct (get_metrics_by_score_range_run score_field min_score max_score s Hf)
      as (-> & _). by rewrite listing_failed.
  - by rewrite get_metrics_by_score_range_invalid.
Qed.

Lemma get_repo_metrics_summary_failed repo_id s :
  succeeded (send (world s) (repo_request self repo_id 100 0)).1 = false →
  (get_repo_metrics_summary send self repo_id s).1 = Ret (zero_repo_summary repo_id).
Proof.
  intros Hsend.
  pose proof (get_metrics_by_repo_run repo_id 100 0 s) as Hrun.
  simpl in Hrun. rewrite listing_failed in Hrun by done. destruct Hrun as (Hres & _).
  unfold get_repo_metrics_summary, DEFAULT_LIMIT, DEFAULT_OFFSET. run.
  destruct (get_metrics_by_repo send self repo_id 100 0 s) as [v s2].
  simpl in Hres. by subst v.
Qed.

Lemma get_metrics_summary_fetch_failed s cr w1 n :
  send (world s) (count_request self) = (Ret cr, w1) →
  count_of_response cr = Ret n →
  succeeded (send w1 (page_request self 1000 0)).1 = false →
  (get_metrics_summary send self s).1 =
  Ret {| total_count := n; average_scores := ∅ |}.
Proof.
  intros Hsend Hcount Hfetch.
  pose proof (get_all_metrics_run 1000 0
                (mkState w1 (trace s ++ [count_request self]) (log s))) as Hrun.
  simpl in Hrun. rewrite listing_failed in Hrun by done. destruct Hrun as (Hres & _).
  unfold get_metrics_summary. run. fold (count_request self).
  rewrite Hsend. simpl. rewrite Hcount. simpl. unfold DEFAULT_OFFSET.
  destruct (get_all_metrics send self 1000 0 _) as [v s2].
  simpl in Hres. by subst v.
Qed.

(** C8 (amended). No method lets an exception out: each of the eight
    returns normally from every state, for every input and every behaviour
    of the transport.  When its request fails (the transport raises, the
    store answers with a status other than the success status, or the body
    does not decode) a single-call method returns its empty shape: [None]
    for [create_metric] and [get_metric_by_keys], [[]] for the four list
    methods, the zeroed summary for [get_repo_metrics_summary].
    [get_metrics_summary] returns the zeroed summary when its count
    request raises; when its fetch fails it returns an empty
    [average_scores] with the [total_count] read from the count response,
    which is 0, hence the zeroed summary, when the count response was not
    a 200. *)
Theorem methods_absorb_failures s :
  (∀ d, returns (create_metric send self d) s) ∧
  (∀ r i, returns (get_metric_by_keys send self r i) s) ∧
  (∀ r l o, returns (get_metrics_by_repo send self r l o) s) ∧
  (∀ i l o, returns (get_metrics_by_import send self i l o) s) ∧
  (∀ l o, returns (get_all_metrics send self l o) s) ∧
  (∀ f lo hi, returns (get_metrics_by_score_range send self f lo hi) s) ∧
  returns (get_metrics_summary send self) s ∧
  (∀ r, returns (get_repo_metrics_summary send self r) s) ∧
  (∀ d, created (send (world s) (post_request self d)).1 = false →
     (create_metric send self d s).1 = Ret PNone) ∧
  (∀ r i, succeeded (send (world s) (keys_request self r i)).1 = false →
     (get_metric_by_keys send self r i s).1 = Ret PNone) ∧
  (∀ r l o, succeeded (send (world s) (repo_request self r l o)).1 = false →
     (get_metrics_by_repo send self r l o s).1 = Ret (PList [])) ∧
  (∀ i l o, succeeded (send (world s) (import_request self i l o)).1 = false →
     (get_metrics_by_import send self i l o s).1 = Ret (PList [])) ∧
  (∀ l o, succeeded (send (world s) (page_request self l o)).1 = false →
     (get_all_metrics send self l o s).1 = Ret (PList [])) ∧
  (∀ f lo hi, succeeded (send (world s) (range_request self f lo hi)).1 = false →
     (get_metrics_by_score_range send self f lo hi s).1 = Ret (PList [])) ∧
  (∀ r, succeeded (send (world s) (repo_request self r 100 0)).1 = false →
     (get_repo_metrics_summary send self r s).1 = Ret (zero_repo_summary r)) ∧
  (∀ e, (send (world s) (count_request self)).1 = Raise e →
     (get_metrics_summary send self s).1 = Ret zero_summary) ∧
  (∀ cr w1 n,
     send (world s) (count_request self) = (Ret cr, w1) →
     count_of_response cr = Ret n →
     succeeded (send w1 (page_request self 1000 0)).1 = false →
     (get_metrics_summary send self s).1 =
     Ret {| total_count := n; average_scores := ∅ |}) ∧
  (∀ cr w1,
     send (world s) (count_request self) = (Ret cr, w1) →
     status_code cr ≠ 200 →
     succeeded (send w1 (page_request self 1000 0)).1 = false →
     (get_metrics_summary send self s).1 = Ret zero_summary).
Proof.
  repeat split.
  - intros. apply create_metric_returns.
  - intros. apply get_metric_by_keys_returns.
  - intros. apply get_metrics_by_repo_returns.
  - intros. apply get_metrics_by_import_returns.
  - intros. apply get_all_metrics_returns.
  - intros. apply get_metrics_by_score_range_returns.
  - apply get_metrics_summary_returns.
  - intros. apply get_repo_metrics_summary_returns.
  - intros d. apply create_metric_failed.
  - intros r i. apply get_metric_by_keys_failed.
  - intros r l o He.
    destruct (get_metrics_by_repo_run r l o s) as (-> & _).
    by rewrite listing_failed.
  - intros i l o He.
    destruct (get_metrics_by_import_run i l o s) as (-> & _).
    by rewrite listing_failed.
  - intros l o He.
    destruct (get_all_metrics_run l o s) as (-> & _).
    by rewrite listing_failed.
  - intros f lo hi. apply get_metrics_by_score_range_failed.
  - intros r. apply get_repo_metrics_summary_failed.
  - intros e. apply get_metrics_summary_count_error.
  - intros cr w1 n. apply get_metrics_summary_fetch_failed.
  - intros cr w1 Hsend Hst Hfetch.
    apply (get_metrics_summary_fetch_failed s cr w1 0); [done| |done].
    apply count_of_response_failed. by left.
Qed.

End Facts.

(** ** The accessor against the reference store *)

Section AgainstStore.

Variable self : repository.

Lemma row_matches_repo_request repo_id limit offset row :
  is_metric_row row = true →
  RefStore.row_matches (req_params (repo_request self repo_id limit offset)) row =
  has_repo repo_id row.
Proof.
  intros Hrow. unfold RefStore.row_matches, RefStore.columns, score_fields.
  set (P := req_params (repo_request self repo_id limit offset)).
  assert (H1 : P !! "repoID" = Some (PStr ("eq." +:+ repo_id))) by reflexivity.
  assert (H2 : P !! "importID" = None) by reflexivity.
  assert (H3 : P !! "commitHistScore" = None) by reflexivity.
  assert (H4 : P !! "complexityScore" = None) by reflexivity.
  assert (H5 : P !! "churnScore" = None) by reflexivity.
  assert (H6 : P !! "totalScore" = None) by reflexivity.
  assert (H7 : P !! "packageVersionScore" = None) by reflexivity.
  cbn [forallb app]. rewrite H1, H2, H3, H4, H5, H6, H7.
  rewrite !andb_true_r. unfold has_repo, is_metric_row in *.
  destruct (row !! "repoID") as [[]|]; try discriminate. reflexivity.
Qed.

Lemma select_rows_repo_request repo_id t :
  forallb is_metric_row t = true →
  RefStore.select_rows (req_params (repo_request self repo_id 100 0)) t =
  take 100 (rows_of_repo repo_id t).
Proof.
  intros Ht. unfold RefStore.select_rows, RefStore.page, rows_of_repo.
  set (P := req_params (repo_request self repo_id 100 0)).
  assert (H1 : P !! "offset" = Some (PInt 0)) by reflexivity.
  assert (H2 : P !! "limit" = Some (PInt 100)) by reflexivity.
  rewrite H1, H2. change (Z.to_nat 0) with 0%nat. change (Z.to_nat 100) with 100%nat.
  rewrite drop_0. f_equal. subst P.
  induction t as [|row t IH]; [done|].
  cbn [forallb] in Ht. apply andb_true_iff in Ht as [Hrow Ht].
  cbn [List.filter]. rewrite row_matches_repo_request by done. by rewrite IH.
Qed.

Lemma is_metric_row_record row :
  is_metric_row row = true → is_metric_record (PDict row) = true.
Proof.
  unfold is_metric_row. by destruct (row !! "repoID") as [[]|].
Qed.

Lemma rows_of_repo_records repo_id t n :
  forallb is_metric_row t = true →
  forallb is_metric_record (PDict <$> take n (rows_of_repo repo_id t)) = true.
Proof.
  intros Ht. apply forallb_forall. intros v Hv.
  apply list_elem_of_In, list_elem_of_fmap in Hv as (row & -> & Hrow).
  apply is_metric_row_record.
  apply subseteq_take, list_elem_of_In, filter_In in Hrow as [Hrow _].
  by apply (proj1 (forallb_forall _ _) Ht).
Qed.

(** C2 (amended). Against a store that honours [limit] and [offset],
    [get_repo_metrics_summary] computes over the one page it fetches, the
    first 100 records of the repository ([limit = 100], [offset = 0]):
    [metric_count] is the number of records of that page, that is the
    smaller of 100 and the number of the repository's records, and the
    averages are those of the page. *)
Theorem get_repo_metrics_summary_first_page repo_id (t : RefStore.table) s :
  world s = t → forallb is_metric_row t = true →
  let r := get_repo_metrics_summary RefStore.send self repo_id s in
  let fetched := take 100 (rows_of_repo repo_id t) in
  r.1 = Ret {| repo_id := repo_id;
               metric_count := Z.of_nat (length fetched);
               repo_average_scores := expected_averages (PDict <$> fetched) |} ∧
  Z.of_nat (length fetched) = Z.min 100 (Z.of_nat (length (rows_of_repo repo_id t))) ∧
  trace r.2 = trace s ++ [repo_request self repo_id 100 0] ∧
  req_params (repo_request self repo_id 100 0) !! "limit" = Some (PInt 100) ∧
  req_params (repo_request self repo_id 100 0) !! "offset" = Some (PInt 0).
Proof.
  intros Hw Ht. simpl.
  assert (Hsend : RefStore.send (world s) (repo_request self repo_id 100 0) =
                  (Ret (Fixtures.page_of (take 100 (rows_of_repo repo_id t))), t)).
  { rewrite Hw. unfold RefStore.send.
    change (req_method (repo_request self repo_id 100 0)) with GET. cbv iota.
    replace (RefStore.is_count_request (req_params (repo_request self repo_id 100 0)))
      with false by reflexivity.
    by rewrite select_rows_repo_request. }
  rewrite (get_repo_metrics_summary_fetched RefStore.send self repo_id s _ _ _ Hsend)
    by (reflexivity || by apply rows_of_repo_records).
  rewrite length_fmap. split; [done|]. split; [|done].
  rewrite length_take. lia.
Qed.

End AgainstStore.

(** ** Further properties of the accessor *)

(** *** [int] after [str], and the last segment of a header *)

Lemma parse_digits_numeral d acc prev :
  d ≠ Decimal.Nil ∨ prev = true →
  parse_digits acc prev (list_ascii_of_string (NilEmpty.string_of_uint d)) =
  Some (digits_value acc d).
Proof.
  revert acc prev. induction d; intros acc prev H; simpl;
    try (rewrite IHd; [reflexivity|by right]).
  destruct H as [H| ->]; [done|reflexivity].
Qed.

Lemma of_uint_acc_value d acc :
  Z.pos (Pos.of_uint_acc d acc) = digits_value (Z.pos acc) d.
Proof.
  revert acc. induction d; intros acc; simpl; try (rewrite IHd; f_equal; lia).
  reflexivity.
Qed.

Lemma of_uint_value d : Z.of_N (Pos.of_uint d) = digits_value 0 d.
Proof.
  induction d; simpl; try (rewrite of_uint_acc_value; reflexivity); done.
Qed.

Lemma numeral_plain d :
  Forall (λ c, is_plain c = true) (list_ascii_of_string (NilEmpty.string_of_uint d)).
Proof. induction d; simpl; constructor; done. Qed.

Lemma lstrip_plain l :
  Forall (λ c, is_space c = false) l → lstrip l = l.
Proof. destruct 1 as [|c l Hc _]; simpl; [done|by rewrite Hc]. Qed.

Lemma strip_plain l :
  Forall (λ c, is_space c = false) l → strip l = l.
Proof.
  intros H. unfold strip. rewrite (lstrip_plain l H).
  rewrite lstrip_plain by (by apply Forall_rev). apply rev_involutive.
Qed.

Lemma numeral_no_space d :
  Forall (λ c, is_space c = false) (list_ascii_of_string (NilEmpty.string_of_uint d)).
Proof.
  eapply Forall_impl; [apply numeral_plain|].
  intros c Hc. unfold is_plain in Hc. apply andb_true_iff in Hc as [Hc _].
  by apply negb_true_iff.
Qed.

Lemma int_of_str_numeral d :
  d ≠ Decimal.Nil →
  int_of_str (NilEmpty.string_of_uint d) = Ret (digits_value 0 d).
Proof.
  intros Hd. unfold int_of_str. rewrite strip_plain by apply numeral_no_space.
  pose proof (parse_digits_numeral d 0 false (or_introl Hd)) as Hp.
  destruct d; try done; simpl in *; by rewrite Hp.
Qed.

Lemma int_of_str_minus_numeral d :
  d ≠ Decimal.Nil →
  int_of_str (String "-" (NilEmpty.string_of_uint d)) = Ret (- digits_value 0 d).
Proof.
  intros Hd. unfold int_of_str.
  rewrite strip_plain by (simpl; constructor; [done|apply numeral_no_space]).
  simpl. by rewrite (parse_digits_numeral d 0 false (or_introl Hd)).
Qed.

Lemma to_uint_value p : digits_value 0 (Pos.to_uint p) = Z.pos p.
Proof. by rewrite <- of_uint_value, DecimalPos.Unsigned.of_to. Qed.

Lemma string_of_to_uint p :
  NilZero.string_of_uint (Pos.to_uint p) = NilEmpty.string_of_uint (Pos.to_uint p).
Proof.
  pose proof (DecimalPos.Unsigned.to_uint_nonnil p).
  by destruct (Pos.to_uint p).
Qed.

Lemma int_of_str_str_of_int z : int_of_str (str_of_int z) = Ret z.
Proof.
  unfold str_of_int. destruct z as [|p|p]; [reflexivity| |]; simpl;
    rewrite string_of_to_uint.
  - rewrite int_of_str_numeral by apply DecimalPos.Unsigned.to_uint_nonnil.
    by rewrite to_uint_value.
  - rewrite int_of_str_minus_numeral by apply DecimalPos.Unsigned.to_uint_nonnil.
    by rewrite to_uint_value.
Qed.

Lemma last_segment_from_plain cur l :
  Forall (λ c, is_plain c = true) l → last_segment_from cur l = cur ++ l.
Proof.
  intros H. revert cur. induction H as [|c l Hc _ IH]; intros cur; simpl.
  - by rewrite app_nil_r.
  - unfold is_plain in Hc. apply andb_true_iff in Hc as [_ Hc].
    apply negb_true_iff in Hc. rewrite Hc, IH. by rewrite <- app_assoc.
Qed.

Lemma last_segment_from_slash cur pre l :
  last_segment_from cur (pre ++ "/"%char :: l) = last_segment_from [] l.
Proof.
  revert cur. induction pre as [|c pre IH]; intros cur; simpl; [done|].
  destruct (Ascii.eqb c "/"); apply IH.
Qed.

Lemma list_ascii_of_string_app s1 s2 :
  list_ascii_of_string (s1 +:+ s2) = list_ascii_of_string s1 ++ list_ascii_of_string s2.
Proof. induction s1 as [|c s1 IH]; simpl; [done|by rewrite IH]. Qed.

Lemma str_of_int_plain z :
  Forall (λ c, is_plain c = true) (list_ascii_of_string (str_of_int z)).
Proof.
  unfold str_of_int. destruct z as [|p|p]; simpl.
  - by constructor.
  - rewrite string_of_to_uint. apply numeral_plain.
  - rewrite string_of_to_uint. constructor; [done|apply numeral_plain].
Qed.

Lemma split_slash_last_total prefix z :
  split_slash_last (prefix +:+ "/" +:+ str_of_int z) = str_of_int z.
Proof.
  unfold split_slash_last. rewrite !list_ascii_of_string_app. simpl.
  rewrite last_segment_from_slash, last_segment_from_plain by apply str_of_int_plain.
  simpl. apply string_of_list_ascii_of_string.
Qed.

(** *** The averaging loop on arbitrary records *)

Lemma valid_scores_of_skips_null field ms1 ms2 d :
  d !! field = None ∨ d !! field = Some PNone →
  valid_scores_of field (ms1 ++ PDict d :: ms2) = valid_scores_of field (ms1 ++ ms2).
Proof.
  intros Hd. induction ms1 as [|m ms1 IH]; simpl.
  - unfold mbind, res_mbind, res_bind. by destruct Hd as [-> | ->].
  - by rewrite IH.
Qed.

(** X6. A record in which the field is absent or null does not change
    the average computed for that field, wherever it stands in the list. *)
Theorem average_of_skips_null field ms1 ms2 d :
  d !! field = None ∨ d !! field = Some PNone →
  average_of field (PList (ms1 ++ PDict d :: ms2)) =
  average_of field (PList (ms1 ++ ms2)).
Proof.
  intros Hd. unfold average_of. simpl.
  by rewrite (valid_scores_of_skips_null field ms1 ms2 d Hd).
Qed.

Lemma py_add_str a x : py_add a (PStr x) = Raise TypeError.
Proof. by destruct a. Qed.

Lemma sum_from_str acc l x :
  PStr x ∈ l → ∃ e, sum_from acc l = Raise e.
Proof.
  intros Hin. revert acc. induction l as [|v l IH]; intros acc.
  - by apply elem_of_nil in Hin.
  - apply elem_of_cons in Hin as [<- | Hin]; simpl.
    + rewrite py_add_str. by eexists.
    + destruct (py_add acc v) as [acc'|e]; simpl; [by apply IH|by eexists].
Qed.

Lemma valid_scores_of_str field ms d x :
  PDict d ∈ ms → d !! field = Some (PStr x) →
  (∃ e, valid_scores_of field ms = Raise e) ∨
  (∃ vs, valid_scores_of field ms = Ret vs ∧ PStr x ∈ vs).
Proof.
  intros Hin Hd. induction ms as [|m ms IH].
  - by apply elem_of_nil in Hin.
  - simpl. unfold mbind, res_mbind, res_bind.
    apply elem_of_cons in Hin as [<- | Hin].
    + simpl. rewrite Hd. simpl.
      destruct (valid_scores_of field ms) as [vs|e]; [right|left; by eexists].
      exists (PStr x :: vs). split; [done|]. apply list_elem_of_here.
    + specialize (IH Hin).
      destruct (dict_get m field) as [g|e]; simpl; [|left; by eexists].
      destruct (is_not_none g).
      * destruct (getitem_key m field) as [v|e]; simpl; [|left; by eexists].
        destruct IH as [[e ->]|(vs & -> & Hvs)]; [left; by eexists|right].
        exists (v :: vs). split; [done|]. by apply list_elem_of_further.
      * exact IH.
Qed.

Lemma average_of_str field ms d x :
  PDict d ∈ ms → d !! field = Some (PStr x) →
  ∃ e, average_of field (PList ms) = Raise e.
Proof.
  intros Hin Hd. unfold average_of. simpl. unfold mbind, res_mbind, res_bind.
  destruct (valid_scores_of_str field ms d x Hin Hd) as [[e ->]|(vs & -> & Hvs)];
    [by eexists|].
  destruct vs as [|v vs]; [by apply elem_of_nil in Hvs|].
  destruct (sum_from_str (PInt 0) (v :: vs) x Hvs) as [e He].
  unfold py_sum. rewrite He. by eexists.
Qed.

Lemma average_scores_loop_str fields field ms d x avg :
  field ∈ fields → PDict d ∈ ms → d !! field = Some (PStr x) →
  ∃ e, average_scores_loop fields (PList ms) avg = Raise e.
Proof.
  intros Hf Hin Hd. revert avg. induction fields as [|f fields IH]; intros avg.
  - by apply elem_of_nil in Hf.
  - rewrite average_scores_loop_cons. unfold mbind, res_mbind, res_bind.
    apply elem_of_cons in Hf as [<- | Hf].
    + destruct (average_of_str field ms d x Hin Hd) as [e ->]. by eexists.
    + destruct (average_of f (PList ms)) as [a|e]; [by apply IH|by eexists].
Qed.

Section MoreFacts.

Context {World : Type}.
Variable send : World → request → res response * World.
Variable self : repository.

Lemma int_of_last_segment prefix n :
  int_of_str (split_slash_last (prefix +:+ "/" +:+ str_of_int n)) = Ret n.
Proof. rewrite split_slash_last_total. apply int_of_str_str_of_int. Qed.

Lemma header_with_slash_truthy prefix rest :
  truthy (PStr (prefix +:+ "/" +:+ rest)) = true.
Proof. by destruct prefix. Qed.

(** X1. A 200 count response whose [content-range] header ends in a slash
    followed by the decimal numeral of [n], whatever precedes the slash,
    gives the total [n]. *)
Theorem count_of_response_content_range cr prefix n :
  status_code cr = 200 →
  resp_headers cr !! "content-range" = Some (prefix +:+ "/" +:+ str_of_int n) →
  count_of_response cr = Ret n.
Proof.
  intros Hs Hh. unfold count_of_response. rewrite Hs, Hh.
  rewrite Z.eqb_refl, header_with_slash_truthy.
  apply int_of_last_segment.
Qed.

(** X2. When the text after the last slash of the [content-range] header
    is not an integer literal, [get_metrics_summary] returns the zeroed
    summary and issues no fetch: the count request is its only request. *)
Theorem get_metrics_summary_unparsable_count s cr w1 h e :
  send (world s) (count_request self) = (Ret cr, w1) →
  status_code cr = 200 →
  resp_headers cr !! "content-range" = Some h → h ≠ "" →
  int_of_str (split_slash_last h) = Raise e →
  let r := get_metrics_summary send self s in
  r.1 = Ret zero_summary ∧
  trace r.2 = trace s ++ [count_request self] ∧
  world r.2 = w1.
Proof.
  intros Hsend Hs Hh Hne Hparse. simpl.
  unfold get_metrics_summary. run. fold (count_request self).
  rewrite Hsend. simpl. unfold count_of_response. rewrite Hs, Hh. simpl.
  replace (negb (h =? "")%string) with true
    by (symmetry; apply negb_true_iff; by apply String.eqb_neq).
  rewrite Hparse. done.
Qed.

(** X3. [min_score] has no effect on [get_metrics_by_score_range]: two
    calls that differ only in it behave the same, in result, requests and
    log. *)
Theorem get_metrics_by_score_range_ignores_min_score score_field lo lo' hi s :
  get_metrics_by_score_range send self score_field lo hi s =
  get_metrics_by_score_range send self score_field lo' hi s.
Proof.
  unfold get_metrics_by_score_range.
  by rewrite !score_range_params_overwritten.
Qed.

(** X4. [create_metric] checks nothing beyond the presence of the four
    required keys and the type of the two required scores: with [repoID]
    and [importID] bound to values of any type and with any further
    entries, the payload is posted unchanged. *)
Theorem create_metric_validates_only_required r i c1 c2 (rest : gmap string pyval) s :
  isinstance_int c1 = true → isinstance_int c2 = true →
  let d := <["repoID" := r]> (<["importID" := i]>
             (<["commitHistScore" := c1]> (<["complexityScore" := c2]> rest))) in
  let res := create_metric send self d s in
  trace res.2 = trace s ++ [post_request self d] ∧
  req_json (post_request self d) = Some d.
Proof.
  intros H1 H2 d. simpl.
  rewrite (create_metric_sends send self d s c1 c2);
    try done; try (subst d; by simplify_map_eq).
  destruct (send (world s) (post_request self d)) as [[response|e] w']; simpl; [|done].
  destruct (status_code response =? 201); simpl; [|done].
  destruct (json_body response) as [v|]; simpl; [|done].
  destruct (isinstance_list v); simpl; [|done].
  by destruct (getitem_0 v).
Qed.

(** X5. [None] from [create_metric] does not mean that nothing was
    written: when the store answers 201 with a body that is not JSON or is
    an empty array, the method has issued its [POST] and the world has
    moved on, yet it returns [None] and logs an error last. *)
Theorem create_metric_none_after_write d s c1 c2 resp w' :
  is_Some (d !! "repoID") → is_Some (d !! "importID") →
  d !! "commitHistScore" = Some c1 → d !! "complexityScore" = Some c2 →
  isinstance_int c1 = true → isinstance_int c2 = true →
  send (world s) (post_request self d) = (Ret resp, w') →
  status_code resp = 201 →
  json_body resp = None ∨ json_body resp = Some (PList []) →
  let r := create_metric send self d s in
  r.1 = Ret PNone ∧
  trace r.2 = trace s ++ [post_request self d] ∧
  world r.2 = w' ∧
  last (log r.2) = Some (ERROR, "Error creating metric: ").
Proof.
  intros Hr Hi Hc1 Hc2 Hi1 Hi2 Hsend Hst Hbody. simpl.
  rewrite (create_metric_sends send self d s c1 c2) by done.
  rewrite Hsend, Hst. simpl.
  destruct Hbody as [-> | ->]; simpl; by rewrite last_snoc.
Qed.

(** X7. One fetched record with a string in a score field collapses
    [get_metrics_summary] to the zeroed summary: the total already read
    from the count response is dropped as well. *)
Theorem get_metrics_summary_malformed_record s cr w1 n fr w2 ms d field x :
  send (world s) (count_request self) = (Ret cr, w1) →
  count_of_response cr = Ret n →
  send w1 (page_request self 1000 0) = (Ret fr, w2) →
  status_code fr = 200 → json_body fr = Some (PList ms) →
  PDict d ∈ ms → field ∈ score_fields → d !! field = Some (PStr x) →
  (get_metrics_summary send self s).1 = Ret zero_summary.
Proof.
  intros Hsend Hcount Hsend2 Hst Hbody Hin Hf Hd.
  pose proof (get_all_metrics_run send self 1000 0
                (mkState w1 (trace s ++ [count_request self]) (log s))) as Hrun.
  simpl in Hrun. rewrite Hsend2 in Hrun. simpl in Hrun.
  rewrite Hst, Hbody in Hrun. simpl in Hrun. destruct Hrun as (Hres & _).
  unfold get_metrics_summary. run. fold (count_request self).
  rewrite Hsend. simpl. rewrite Hcount. simpl. unfold DEFAULT_OFFSET.
  destruct (get_all_metrics send self 1000 0 _) as [v s2].
  simpl in Hres. subst v. simpl.
  destruct ms as [|m ms']; [by apply elem_of_nil in Hin|].
  destruct (average_scores_loop_str score_fields field (m :: ms') d x ∅ Hf Hin Hd)
    as [e ->]. done.
Qed.

(** X8. One fetched record with a string in a score field collapses
    [get_repo_metrics_summary] to the zeroed summary of the repository,
    with [metric_count = 0] although records were fetched. *)
Theorem get_repo_metrics_summary_malformed_record repo_id s fr w2 ms d field x :
  send (world s) (repo_request self repo_id 100 0) = (Ret fr, w2) →
  status_code fr = 200 → json_body fr = Some (PList ms) →
  PDict d ∈ ms → field ∈ score_fields → d !! field = Some (PStr x) →
  (get_repo_metrics_summary send self repo_id s).1 = Ret (zero_repo_summary repo_id).
Proof.
  intros Hsend Hst Hbody Hin Hf Hd.
  pose proof (get_metrics_by_repo_run send self repo_id 100 0 s) as Hrun.
  simpl in Hrun. rewrite Hsend in Hrun. simpl in Hrun.
  rewrite Hst, Hbody in Hrun. simpl in Hrun. destruct Hrun as (Hres & _).
  unfold get_repo_metrics_summary, DEFAULT_LIMIT, DEFAULT_OFFSET. run.
  destruct (get_metrics_by_repo send self repo_id 100 0 s) as [v s2].
  simpl in Hres. subst v. simpl.
  destruct ms as [|m ms']; [by apply elem_of_nil in Hin|]. simpl.
  destruct (average_scores_loop_str score_fields field (m :: ms') d x ∅ Hf Hin Hd)
    as [e ->]. done.
Qed.

(** *** Requests issued and entries logged *)

Lemma is_read_page limit offset : is_read self (page_request self limit offset).
Proof. done. Qed.

Lemma get_metrics_summary_trace s :
  let r := get_metrics_summary send self s in
  trace r.2 = trace s ++ [count_request self] ∨
  trace r.2 = trace s ++ [count_request self; page_request self 1000 0].
Proof.
  simpl. unfold get_metrics_summary. run. fold (count_request self).
  destruct (send (world s) (count_request self)) as [[cr|e] w1]; simpl; [|by left].
  destruct (count_of_response cr) as [n|e]; simpl; [|by left].
  pose proof (get_all_metrics_run send self 1000 0
                (mkState w1 (trace s ++ [count_request self]) (log s))) as Hrun.
  simpl in Hrun. destruct Hrun as (Hres & Htrace & _). unfold DEFAULT_OFFSET.
  destruct (get_all_metrics send self 1000 0 _) as [v s2].
  simpl in Hres, Htrace. subst v. simpl.
  rewrite <- app_assoc in Htrace. simpl in Htrace.
  destruct (truthy _); simpl; [|by right].
  destruct (average_scores_loop _ _ _); simpl; by right.
Qed.

Lemma get_repo_metrics_summary_trace repo_id s :
  trace (get_repo_metrics_summary send self repo_id s).2 =
  trace s ++ [repo_request self repo_id 100 0].
Proof.
  pose proof (get_metrics_by_repo_run send self repo_id 100 0 s) as Hrun.
  simpl in Hrun. destruct Hrun as (Hres & Htrace & _).
  unfold get_repo_metrics_summary, DEFAULT_LIMIT, DEFAULT_OFFSET. run.
  destruct (get_metrics_by_repo send self repo_id 100 0 s) as [v s2].
  simpl in Hres, Htrace. subst v. simpl.
  destruct (truthy _); simpl; [|done].
  destruct (average_scores_loop _ _ _); simpl; [|done].
  by destruct (py_len _).
Qed.

Lemma get_metric_by_keys_trace repo_id import_id s :
  trace (get_metric_by_keys send self repo_id import_id s).2 =
  trace s ++ [keys_request self repo_id import_id].
Proof.
  unfold get_metric_by_keys. run. fold (keys_request self repo_id import_id).
  destruct (send (world s) _) as [[response|e] w']; simpl; [|done].
  destruct (status_code response =? 200); simpl; [|done].
  unfold response_json. destruct (json_body response) as [data|]; simpl; [|done].
  destruct (truthy data); simpl; [|done].
  by destruct (getitem_0 data).
Qed.

(** X9. The seven reading methods only read: every request they add to
    the trace is a [GET] of the table URL with the accessor's headers and
    no body.  Each issues exactly one request, except
    [get_metrics_by_score_range], which issues none for an invalid field
    and exactly one for a valid field, and [get_metrics_summary], which
    issues its count request and then at most its fetch. *)
Theorem read_methods_only_read s :
  (∀ r i, ∃ q, trace (get_metric_by_keys send self r i s).2 = trace s ++ [q] ∧
               is_read self q) ∧
  (∀ r l o, ∃ q, trace (get_metrics_by_repo send self r l o s).2 = trace s ++ [q] ∧
                 is_read self q) ∧
  (∀ i l o, ∃ q, trace (get_metrics_by_import send self i l o s).2 = trace s ++ [q] ∧
                 is_read self q) ∧
  (∀ l o, ∃ q, trace (get_all_metrics send self l o s).2 = trace s ++ [q] ∧
               is_read self q) ∧
  (∀ f lo hi, f ∈ score_fields →
     trace (get_metrics_by_score_range send self f lo hi s).2 =
       trace s ++ [range_request self f lo hi] ∧
     is_read self (range_request self f lo hi)) ∧
  (∀ f lo hi, f ∉ score_fields →
     trace (get_metrics_by_score_range send self f lo hi s).2 = trace s) ∧
  ((trace (get_metrics_summary send self s).2 = trace s ++ [count_request self] ∨
    trace (get_metrics_summary send self s).2 =
      trace s ++ [count_request self; page_request self 1000 0]) ∧
   is_read self (count_request self) ∧
   is_read self (page_request self 1000 0)) ∧
  (∀ r, ∃ q, trace (get_repo_metrics_summary send self r s).2 = trace s ++ [q] ∧
             is_read self q).
Proof.
  repeat split.
  - intros r i. exists (keys_request self r i). split; [|done].
    apply get_metric_by_keys_trace.
  - intros r l o. exists (repo_request self r l o). split; [|done].
    by destruct (get_metrics_by_repo_run send self r l o s) as (_ & H & _).
  - intros i l o. exists (import_request self i l o). split; [|done].
    by destruct (get_metrics_by_import_run send self i l o s) as (_ & H & _).
  - intros l o. exists (page_request self l o). split; [|done].
    by destruct (get_all_metrics_run send self l o s) as (_ & H & _).
  - by destruct (get_metrics_by_score_range_run send self f lo hi s H)
      as (_ & Ht & _).
  - intros f lo hi Hf. by rewrite get_metrics_by_score_range_invalid.
  - apply get_metrics_summary_trace.
  - intros r. exists (repo_request self r 100 0). split; [|done].
    apply get_repo_metrics_summary_trace.
Qed.

Ltac list_method_log q :=
  let rsp := fresh "rsp" in
  run; change (mkRequest GET _ _ _ None) with q;
  match goal with
  | |- context [send ?w q] => destruct (send w q) as [[rsp|?] ?]
  end; simpl;
  [ destruct (status_code rsp =? 200); simpl;
    [ unfold response_json; destruct (json_body rsp); simpl | ]
  | ]; eauto.

(** X10. The three paginated list methods return the decoded body as it
    is (a list or not) and log nothing when the store answers 200 with a
    JSON body; in every other case they return [[]] and append exactly one
    entry to the log, at level [ERROR]. *)
Theorem list_methods_log_failures s :
  (∀ r l o,
     let res := get_metrics_by_repo send self r l o s in
     let out := (send (world s) (repo_request self r l o)).1 in
     if succeeded out
     then res.1 = Ret (listing out) ∧ log res.2 = log s
     else res.1 = Ret (PList []) ∧ ∃ msg, log res.2 = log s ++ [(ERROR, msg)]) ∧
  (∀ i l o,
     let res := get_metrics_by_import send self i l o s in
     let out := (send (world s) (import_request self i l o)).1 in
     if succeeded out
     then res.1 = Ret (listing out) ∧ log res.2 = log s
     else res.1 = Ret (PList []) ∧ ∃ msg, log res.2 = log s ++ [(ERROR, msg)]) ∧
  (∀ l o,
     let res := get_all_metrics send self l o s in
     let out := (send (world s) (page_request self l o)).1 in
     if succeeded out
     then res.1 = Ret (listing out) ∧ log res.2 = log s
     else res.1 = Ret (PList []) ∧ ∃ msg, log res.2 = log s ++ [(ERROR, msg)]).
Proof.
  repeat split.
  - intros r l o. simpl. unfold get_metrics_by_repo.
    list_method_log (repo_request self r l o).
  - intros i l o. simpl. unfold get_metrics_by_import.
    list_method_log (import_request self i l o).
  - intros l o. simpl. unfold get_all_metrics.
    list_method_log (page_request self l o).
Qed.

(** X11. When the store answers 200 with a JSON object instead of an
    array, [get_metric_by_keys] returns [None]. *)
Theorem get_metric_by_keys_object_body repo_id import_id s resp w' d :
  send (world s) (keys_request self repo_id import_id) = (Ret resp, w') →
  status_code resp = 200 → json_body resp = Some (PDict d) →
  (get_metric_by_keys send self repo_id import_id s).1 = Ret PNone.
Proof.
  intros Hsend Hst Hbody. unfold get_metric_by_keys. run.
  fold (keys_request self repo_id import_id).
  rewrite Hsend. simpl. rewrite Hst. simpl.
  unfold response_json. rewrite Hbody. simpl.
  by destruct (bool_decide (d = ∅)).
Qed.

End MoreFacts.

Lemma get_metric_by_keys_found {World} (send : World → request → res response * World)
    self repo_id import_id s resp w' l :
  send (world s) (keys_request self repo_id import_id) = (Ret resp, w') →
  status_code resp = 200 → json_body resp = Some (PList l) →
  (get_metric_by_keys send self repo_id import_id s).1 =
  Ret (match l with x :: _ => x | [] => PNone end).
Proof.
  intros Hsend Hst Hbody. unfold get_metric_by_keys. run.
  fold (keys_request self repo_id import_id).
  rewrite Hsend. simpl. rewrite Hst. simpl.
  unfold response_json. rewrite Hbody. simpl. by destruct l.
Qed.

Section MoreAgainstStore.

Variable self : repository.

Lemma store_get (t : RefStore.table) q :
  req_method q = GET → RefStore.is_count_request (req_params q) = false →
  RefStore.send t q = (Ret (Fixtures.page_of (RefStore.select_rows (req_params q) t)), t).
Proof. intros Hm Hc. unfold RefStore.send. by rewrite Hm, Hc. Qed.

Lemma listing_page_of rows :
  listing (Ret (Fixtures.page_of rows)) = PList (PDict <$> rows).
Proof. reflexivity. Qed.

Lemma filter_all {A} (f : A → bool) (l : list A) :
  (∀ x, f x = true) → List.filter f l = l.
Proof. intros Hf. induction l as [|x l IH]; simpl; [done|]. by rewrite Hf, IH. Qed.

Lemma filter_agree {A} (f g : A → bool) (l : list A) :
  Forall (λ x, f x = g x) l → List.filter f l = List.filter g l.
Proof. induction 1 as [|x l Hx _ IH]; simpl; [done|]. by rewrite Hx, IH. Qed.

Lemma select_rows_page_request limit offset (t : RefStore.table) :
  RefStore.select_rows (req_params (page_request self limit offset)) t =
  take (Z.to_nat limit) (drop (Z.to_nat offset) t).
Proof.
  unfold RefStore.select_rows, RefStore.page.
  set (P := req_params (page_request self limit offset)).
  assert (H1 : P !! "offset" = Some (PInt offset)) by reflexivity.
  assert (H2 : P !! "limit" = Some (PInt limit)) by reflexivity.
  rewrite H1, H2. do 2 f_equal. apply filter_all. intros row. reflexivity.
Qed.

Lemma store_page limit offset (t : RefStore.table) :
  RefStore.send t (page_request self limit offset) =
  (Ret (Fixtures.page_of (take (Z.to_nat limit) (drop (Z.to_nat offset) t))), t).
Proof. rewrite store_get by reflexivity. by rewrite select_rows_page_request. Qed.

(** X12. Against the reference store [get_all_metrics(limit, offset)]
    returns the rows [offset .. offset + limit) of the table, in store
    order, and leaves the table as it was. *)
Theorem get_all_metrics_paginates limit offset (t : RefStore.table) s :
  world s = t → 0 ≤ limit → 0 ≤ offset →
  let r := get_all_metrics RefStore.send self limit offset s in
  r.1 = Ret (PList (PDict <$> take (Z.to_nat limit) (drop (Z.to_nat offset) t))) ∧
  world r.2 = t.
Proof.
  intros Hw _ _. simpl.
  destruct (get_all_metrics_run RefStore.send self limit offset s) as (-> & _ & ->).
  rewrite Hw, store_page. cbn [fst snd].
  by rewrite listing_page_of.
Qed.

(** X13. Consecutive pages tile the table: the page of [l1] rows at
    [offset] followed by the page of [l2] rows at [offset + l1] is the page
    of [l1 + l2] rows at [offset]. *)
Theorem get_all_metrics_pages_tile l1 l2 offset (t : RefStore.table) s :
  world s = t → 0 ≤ l1 → 0 ≤ l2 → 0 ≤ offset →
  ∃ p1 p2,
    (get_all_metrics RefStore.send self l1 offset s).1 = Ret (PList p1) ∧
    (get_all_metrics RefStore.send self l2 (offset + l1) s).1 = Ret (PList p2) ∧
    (get_all_metrics RefStore.send self (l1 + l2) offset s).1 = Ret (PList (p1 ++ p2)).
Proof.
  intros Hw H1 H2 Ho.
  destruct (get_all_metrics_run RefStore.send self l1 offset s) as (E1 & _).
  destruct (get_all_metrics_run RefStore.send self l2 (offset + l1) s) as (E2 & _).
  destruct (get_all_metrics_run RefStore.send self (l1 + l2) offset s) as (E3 & _).
  rewrite Hw, store_page in E1, E2, E3. cbn [fst] in E1, E2, E3.
  rewrite listing_page_of in E1, E2, E3.
  do 2 eexists. split; [exact E1|]. split; [exact E2|].
  rewrite E3. do 2 f_equal. rewrite <- fmap_app. f_equal.
  rewrite !Z2Nat.inj_add by lia. rewrite <- drop_drop.
  by rewrite take_take_drop.
Qed.

Lemma row_matches_repo repo_id limit offset row :
  is_keyed_row row = true →
  RefStore.row_matches (req_params (repo_request self repo_id limit offset)) row =
  has_repo repo_id row.
Proof.
  intros Hrow. unfold RefStore.row_matches, RefStore.columns, score_fields.
  set (P := req_params (repo_request self repo_id limit offset)).
  assert (H1 : P !! "repoID" = Some (PStr ("eq." +:+ repo_id))) by reflexivity.
  assert (H2 : P !! "importID" = None) by reflexivity.
  assert (H3 : P !! "commitHistScore" = None) by reflexivity.
  assert (H4 : P !! "complexityScore" = None) by reflexivity.
  assert (H5 : P !! "churnScore" = None) by reflexivity.
  assert (H6 : P !! "totalScore" = None) by reflexivity.
  assert (H7 : P !! "packageVersionScore" = None) by reflexivity.
  cbn [forallb app]. rewrite H1, H2, H3, H4, H5, H6, H7.
  rewrite !andb_true_r. unfold has_repo, is_keyed_row in *.
  destruct (row !! "repoID") as [[]|]; try discriminate. reflexivity.
Qed.

Lemma row_matches_import import_id limit offset row :
  is_keyed_row row = true →
  RefStore.row_matches (req_params (import_request self import_id limit offset)) row =
  has_import import_id row.
Proof.
  intros Hrow. unfold RefStore.row_matches, RefStore.columns, score_fields.
  set (P := req_params (import_request self import_id limit offset)).
  assert (H1 : P !! "repoID" = None) by reflexivity.
  assert (H2 : P !! "importID" = Some (PStr ("eq." +:+ import_id))) by reflexivity.
  assert (H3 : P !! "commitHistScore" = None) by reflexivity.
  assert (H4 : P !! "complexityScore" = None) by reflexivity.
  assert (H5 : P !! "churnScore" = None) by reflexivity.
  assert (H6 : P !! "totalScore" = None) by reflexivity.
  assert (H7 : P !! "packageVersionScore" = None) by reflexivity.
  cbn [forallb app]. rewrite H1, H2, H3, H4, H5, H6, H7.
  rewrite !andb_true_r. unfold has_import, is_keyed_row in *.
  destruct (row !! "repoID") as [[]|]; try discriminate.
  destruct (row !! "importID") as [[]|]; try discriminate. reflexivity.
Qed.

Lemma row_matches_keys repo_id import_id row :
  is_keyed_row row = true →
  RefStore.row_matches (req_params (keys_request self repo_id import_id)) row =
  has_key repo_id import_id row.
Proof.
  intros Hrow. unfold RefStore.row_matches, RefStore.columns, score_fields.
  set (P := req_params (keys_request self repo_id import_id)).
  assert (H1 : P !! "repoID" = Some (PStr ("eq." +:+ repo_id))) by reflexivity.
  assert (H2 : P !! "importID" = Some (PStr ("eq." +:+ import_id))) by reflexivity.
  assert (H3 : P !! "commitHistScore" = None) by reflexivity.
  assert (H4 : P !! "complexityScore" = None) by reflexivity.
  assert (H5 : P !! "churnScore" = None) by reflexivity.
  assert (H6 : P !! "totalScore" = None) by reflexivity.
  assert (H7 : P !! "packageVersionScore" = None) by reflexivity.
  cbn [forallb app]. rewrite H1, H2, H3, H4, H5, H6, H7.
  rewrite !andb_true_r. unfold has_key, has_repo, has_import, is_keyed_row in *.
  destruct (row !! "repoID") as [[]|]; try discriminate.
  destruct (row !! "importID") as [[]|]; try discriminate. reflexivity.
Qed.

Lemma forallb_Forall_eq {A} (P : A → bool) (f g : A → bool) (l : list A) :
  forallb P l = true → (∀ x, P x = true → f x = g x) →
  Forall (λ x, f x = g x) l.
Proof.
  intros Hl Hfg. apply Forall_forall. intros x Hx. apply Hfg.
  apply (proj1 (forallb_forall _ _) Hl). by apply list_elem_of_In.
Qed.

(** X14. Against the reference store [get_metrics_by_repo] returns the
    requested page of the repository's records, and every record returned
    has the requested [repoID]. *)
Theorem get_metrics_by_repo_filters_and_paginates repo_id limit offset
    (t : RefStore.table) s :
  world s = t → forallb is_keyed_row t = true → 0 ≤ limit → 0 ≤ offset →
  let r := get_metrics_by_repo RefStore.send self repo_id limit offset s in
  let rows := take (Z.to_nat limit) (drop (Z.to_nat offset) (rows_of_repo repo_id t)) in
  r.1 = Ret (PList (PDict <$> rows)) ∧
  Forall (λ row, has_repo repo_id row = true) rows.
Proof.
  intros Hw Ht _ _. simpl. split.
  - destruct (get_metrics_by_repo_run RefStore.send self repo_id limit offset s)
      as (-> & _).
    rewrite Hw, store_get by reflexivity. cbn [fst].
    rewrite listing_page_of. do 2 f_equal.
    unfold RefStore.select_rows, RefStore.page, rows_of_repo.
    set (P := req_params (repo_request self repo_id limit offset)).
    assert (H1 : P !! "offset" = Some (PInt offset)) by reflexivity.
    assert (H2 : P !! "limit" = Some (PInt limit)) by reflexivity.
    rewrite H1, H2.
    rewrite (filter_agree (RefStore.row_matches P) (has_repo repo_id) t); [done|].
    apply (forallb_Forall_eq is_keyed_row); [done|].
    intros row. apply row_matches_repo.
  - apply Forall_take, Forall_drop, Forall_forall. intros row Hrow.
    unfold rows_of_repo in Hrow. by apply list_elem_of_In, filter_In in Hrow as [_ ?].
Qed.

(** X15. Against the reference store [get_metrics_by_import] returns the
    requested page of the import's records, and every record returned has
    the requested [importID]. *)
Theorem get_metrics_by_import_filters_and_paginates import_id limit offset
    (t : RefStore.table) s :
  world s = t → forallb is_keyed_row t = true → 0 ≤ limit → 0 ≤ offset →
  let r := get_metrics_by_import RefStore.send self import_id limit offset s in
  let rows :=
    take (Z.to_nat limit) (drop (Z.to_nat offset) (rows_of_import import_id t)) in
  r.1 = Ret (PList (PDict <$> rows)) ∧
  Forall (λ row, has_import import_id row = true) rows.
Proof.
  intros Hw Ht _ _. simpl. split.
  - destruct (get_metrics_by_import_run RefStore.send self import_id limit offset s)
      as (-> & _).
    rewrite Hw, store_get by reflexivity. cbn [fst].
    rewrite listing_page_of. do 2 f_equal.
    unfold RefStore.select_rows, RefStore.page, rows_of_import.
    set (P := req_params (import_request self import_id limit offset)).
    assert (H1 : P !! "offset" = Some (PInt offset)) by reflexivity.
    assert (H2 : P !! "limit" = Some (PInt limit)) by reflexivity.
    rewrite H1, H2.
    rewrite (filter_agree (RefStore.row_matches P) (has_import import_id) t); [done|].
    apply (forallb_Forall_eq is_keyed_row); [done|].
    intros row. apply row_matches_import.
  - apply Forall_take, Forall_drop, Forall_forall. intros row Hrow.
    unfold rows_of_import in Hrow.
    by apply list_elem_of_In, filter_In in Hrow as [_ ?].
Qed.

Lemma store_keys repo_id import_id (t : RefStore.table) :
  forallb is_keyed_row t = true →
  RefStore.send t (keys_request self repo_id import_id) =
  (Ret (Fixtures.page_of (List.filter (has_key repo_id import_id) t)), t).
Proof.
  intros Ht. rewrite store_get by reflexivity. do 2 f_equal.
  unfold RefStore.select_rows, RefStore.page.
  set (P := req_params (keys_request self repo_id import_id)).
  assert (H1 : P !! "offset" = None) by reflexivity.
  assert (H2 : P !! "limit" = None) by reflexivity.
  rewrite H1, H2.
  rewrite (filter_agree (RefStore.row_matches P) (has_key repo_id import_id) t);
    [done|].
  apply (forallb_Forall_eq is_keyed_row); [done|].
  intros row. apply row_matches_keys.
Qed.

(** X16. Against the reference store [get_metric_by_keys] returns the
    first record carrying the composite key, and [None] when no record
    carries it. *)
Theorem get_metric_by_keys_first_with_key repo_id import_id (t : RefStore.table) s :
  world s = t → forallb is_keyed_row t = true →
  (get_metric_by_keys RefStore.send self repo_id import_id s).1 =
  Ret (match List.filter (has_key repo_id import_id) t with
       | row :: _ => PDict row
       | [] => PNone
       end).
Proof.
  intros Hw Ht.
  rewrite (get_metric_by_keys_found RefStore.send self repo_id import_id s
             (Fixtures.page_of (List.filter (has_key repo_id import_id) t)) t
             (PDict <$> List.filter (has_key repo_id import_id) t)).
  - by destruct (List.filter _ t).
  - rewrite Hw. by apply store_keys.
  - done.
  - done.
Qed.

(** X17. Round trip: after [create_metric] of a valid payload whose key
    no stored record carries, the record is appended to the table, is
    returned by [create_metric], and [get_metric_by_keys] on its key
    returns it. *)
Theorem create_metric_then_get_metric_by_keys d repo_id import_id c1 c2
    (t : RefStore.table) s :
  world s = t → forallb is_keyed_row t = true →
  d !! "repoID" = Some (PStr repo_id) → d !! "importID" = Some (PStr import_id) →
  d !! "commitHistScore" = Some c1 → d !! "complexityScore" = Some c2 →
  isinstance_int c1 = true → isinstance_int c2 = true →
  List.filter (has_key repo_id import_id) t = [] →
  let r := create_metric RefStore.send self d s in
  r.1 = Ret (PDict d) ∧
  world r.2 = t ++ [d] ∧
  (get_metric_by_keys RefStore.send self repo_id import_id r.2).1 = Ret (PDict d).
Proof.
  intros Hw Ht Hr Hi Hc1 Hc2 Hi1 Hi2 Hnew. simpl.
  assert (Hcreate : create_metric RefStore.send self d s =
            (Ret (PDict d),
             mkState (t ++ [d]) (trace s ++ [post_request self d])
               (log s ++ [(INFO, "Created metric: ")]))).
  { rewrite (create_metric_sends RefStore.send self d s c1 c2) by eauto.
    by rewrite Hw. }
  rewrite Hcreate. cbn [fst snd]. split; [done|]. split; [done|].
  assert (Ht' : forallb is_keyed_row (t ++ [d]) = true).
  { rewrite forallb_app, Ht. simpl. unfold is_keyed_row. by rewrite Hr, Hi. }
  rewrite (get_metric_by_keys_found RefStore.send self repo_id import_id _
             (Fixtures.page_of (List.filter (has_key repo_id import_id) (t ++ [d])))
             (t ++ [d])
             (PDict <$> List.filter (has_key repo_id import_id) (t ++ [d])));
    [|by apply store_keys|done|done].
  rewrite List.filter_app, Hnew. simpl.
  unfold has_key, has_repo, has_import. rewrite Hr, Hi, !String.eqb_refl. done.
Qed.

Lemma row_matches_range field lo hi row :
  field ∈ score_fields →
  RefStore.row_matches (req_params (range_request self field lo hi)) row =
  score_at_most field hi row.
Proof.
  intros Hf. unfold RefStore.row_matches, RefStore.columns, score_fields.
  set (P := req_params (range_request self field lo hi)).
  assert (Hlte : ∀ cell,
            RefStore.cell_matches (PStr ("lte." +:+ str_of_int hi)) cell =
            match cell with Some (PInt z) => z <=? hi | _ => false end).
  { intros cell. unfold RefStore.cell_matches.
    change (RefStore.strip_prefix "eq." ("lte." +:+ str_of_int hi))
      with (@None string).
    change (RefStore.strip_prefix "gte." ("lte." +:+ str_of_int hi))
      with (@None string).
    change (RefStore.strip_prefix "lte." ("lte." +:+ str_of_int hi))
      with (Some (str_of_int hi)).
    cbv beta iota. rewrite int_of_str_str_of_int. by destruct cell as [[]|]. }
  apply elem_of_score_fields in Hf as [-> | [-> | [-> | [-> | ->]]]];
    cbn [forallb app];
    repeat match goal with
      | |- context [P !! ?k] =>
          first [ replace (P !! k) with (@None pyval) by reflexivity
                | replace (P !! k) with (Some (PStr ("lte." +:+ str_of_int hi)))
                    by reflexivity ]
      end;
    rewrite Hlte, ?andb_true_r; reflexivity.
Qed.

(** X18. Against the reference store [get_metrics_by_score_range] with a
    valid field returns exactly the records holding an integer at most
    [max_score] in that field, whatever [min_score] is. *)
Theorem get_metrics_by_score_range_upper_bound_only field lo hi (t : RefStore.table) s :
  world s = t → field ∈ score_fields →
  (get_metrics_by_score_range RefStore.send self field lo hi s).1 =
  Ret (PList (PDict <$> List.filter (score_at_most field hi) t)).
Proof.
  intros Hw Hf.
  destruct (get_metrics_by_score_range_run RefStore.send self field lo hi s Hf)
    as (-> & _).
  assert (Hc : RefStore.is_count_request (req_params (range_request self field lo hi))
               = false).
  { apply elem_of_score_fields in Hf as [-> | [-> | [-> | [-> | ->]]]]; reflexivity. }
  rewrite Hw, store_get by done. cbn [fst]. rewrite listing_page_of.
  unfold RefStore.select_rows, RefStore.page.
  set (P := req_params (range_request self field lo hi)).
  assert (H1 : P !! "offset" = None)
    by (apply elem_of_score_fields in Hf as [-> | [-> | [-> | [-> | ->]]]];
        reflexivity).
  assert (H2 : P !! "limit" = None)
    by (apply elem_of_score_fields in Hf as [-> | [-> | [-> | [-> | ->]]]];
        reflexivity).
  rewrite H1, H2.
  rewrite (filter_agree (RefStore.row_matches P) (score_at_most field hi) t);
    [done|].
  apply Forall_forall. intros row _. by apply row_matches_range.
Qed.

Lemma store_count (t : RefStore.table) :
  ∃ cr, RefStore.send t (count_request self) = (Ret cr, t) ∧
        count_of_response cr = Ret (Z.of_nat (length t)).
Proof.
  eexists. split; [reflexivity|].
  unfold count_of_response. cbn [status_code]. rewrite Z.eqb_refl.
  replace (resp_headers _ !! "content-range")
    with (Some (RefStore.content_range (length t))) by reflexivity.
  destruct (length t) as [|m].
  - reflexivity.
  - change (RefStore.content_range (S m)) with
      (("0-" +:+ str_of_int (Z.of_nat m)) +:+ "/" +:+ str_of_int (Z.of_nat (S m))).
    by rewrite header_with_slash_truthy, int_of_last_segment.
Qed.

Lemma rows_are_records n (t : RefStore.table) :
  forallb is_metric_row t = true →
  forallb is_metric_record (PDict <$> take n t) = true.
Proof.
  intros Ht. apply forallb_forall. intros v Hv.
  apply list_elem_of_In, list_elem_of_fmap in Hv as (row & -> & Hrow).
  apply is_metric_row_record.
  apply subseteq_take, list_elem_of_In in Hrow.
  by apply (proj1 (forallb_forall _ _) Ht).
Qed.

(** X19. Against the reference store [get_metrics_summary] reports the
    number of all rows as [total_count] while averaging over the first 1000
    rows only; the two agree on the same rows when the table has at most
    1000. *)
Theorem get_metrics_summary_counts_all_averages_first_1000 (t : RefStore.table) s :
  world s = t → forallb is_metric_row t = true →
  (get_metrics_summary RefStore.send self s).1 =
    Ret {| total_count := Z.of_nat (length t);
           average_scores := expected_averages (PDict <$> take 1000 t) |} ∧
  ((length t ≤ 1000)%nat → take 1000 t = t).
Proof.
  intros Hw Ht. subst t. split; [|apply take_ge].
  destruct (store_count (world s)) as (cr & Hsend & Hcount).
  pose proof (get_all_metrics_run RefStore.send self 1000 0
                (mkState (world s) (trace s ++ [count_request self]) (log s)))
    as (Hfetch & _).
  cbn [world] in Hfetch. rewrite store_page in Hfetch. cbn [fst] in Hfetch.
  rewrite listing_page_of in Hfetch.
  destruct (get_all_metrics RefStore.send self 1000 0 _) as [v s2] eqn:Hrun.
  cbn [fst] in Hfetch. subst v. rewrite drop_0 in Hrun.
  change (Z.to_nat 1000) with 1000%nat in Hrun.
  by rewrite (get_metrics_summary_fetched RefStore.send self s cr (world s) _ _ s2
                Hsend Hcount Hrun (rows_are_records 1000 (world s) Ht)).
Qed.

End MoreAgainstStore.


(** ** Concrete runs *)

Import Fixtures.

(** C1. [get_metrics_by_score_range("totalScore", 5, 10)] run against a
    table whose [totalScore] values are 1, 7 and 20: the one request sent
    carries the upper bound only (the [gte.5] entry was overwritten in the
    [params] display), and the record whose [totalScore] is 1, below the
    range, is returned together with the one whose [totalScore] is 7. *)
Theorem get_metrics_by_score_range_drops_lower_bound :
  let r := get_metrics_by_score_range RefStore.send repo "totalScore" 5 10 (start t3) in
  req_params <$> trace r.2 =
    [ {[ "select" := PStr "*"; "totalScore" := PStr "lte.10" ]} ] ∧
  r.1 = Ret (PList [PDict row1; PDict row2]) ∧
  row1 !! "totalScore" = Some (PInt 1).
Proof. cbv zeta. repeat split; reflexivity. Qed.

(** C2, as stated, fails: a repository with 101 records in the store gets
    [metric_count = 100]. *)
Lemma get_repo_metrics_summary_capped :
  let r := get_repo_metrics_summary RefStore.send repo "r" (start t101) in
  Z.of_nat (length (rows_of_repo "r" t101)) = 101 ∧
  ∃ sm, r.1 = Ret sm ∧ metric_count sm = 100 ∧
        metric_count sm ≠ Z.of_nat (length (rows_of_repo "r" t101)).
Proof.
  cbv zeta. split; [vm_compute; reflexivity|].
  eexists. split; [vm_compute; reflexivity|]. split; [reflexivity|].
  vm_compute. discriminate.
Qed.

(** C8, as stated, fails for [get_metrics_summary]: the count request
    answers with five rows, the transport raises on the fetch, and the
    method returns [total_count = 5], not the zeroed summary. *)
Lemma get_metrics_summary_fetch_failure_keeps_count :
  let w := [Ret count_five; Raise RequestException] in
  let r := get_metrics_summary Scripted.send repo (start w) in
  (Scripted.send [Raise RequestException] (page_request repo 1000 0)).1 =
    Raise RequestException ∧
  r.1 = Ret {| total_count := 5; average_scores := ∅ |} ∧
  r.1 ≠ Ret zero_summary.
Proof.
  cbv zeta. split; [reflexivity|]. split; [reflexivity|].
  vm_compute. discriminate.
Qed.

(** [int] keeps the separators 28 to 31: a count header with one of them
    after the total has no integer to read, and the summary is zeroed. *)
Lemma int_of_str_keeps_separators :
  int_of_str (String "5" (String (ascii_of_nat 31) "")) =
    Raise (ValueError "invalid literal for int() with base 10") ∧
  int_of_str " 5 " = Ret 5 ∧
  (get_metrics_summary Scripted.send repo
     (start [Ret (mkResponse 200 (Some (PList []))
                   {[ "content-range" :=
                        "0-4/5" +:+ String (ascii_of_nat 31) "" ]});
             Ret (page_of t3)])).1 = Ret zero_summary.
Proof. repeat split; reflexivity. Qed.

(** *** Instances of the theorems *)

Lemma create_metric_rejects_invalid_payload_witness :
  let r := create_metric Scripted.send repo payload_no_import
             (start ([] : list (res response))) in
  r.1 = Ret PNone ∧ trace r.2 = [] ∧ world r.2 = [].
Proof.
  apply (create_metric_rejects_invalid_payload Scripted.send repo
           payload_no_import (start [])).
  left. exists "importID". split; [|reflexivity].
  unfold required_fields. apply list_elem_of_further, list_elem_of_here.
Defined.

Lemma create_metric_posts_once_and_returns_echo_witness :
  let r := create_metric RefStore.send repo payload (start t3) in
  trace r.2 = [post_request repo payload] ∧ r.1 = Ret (PDict payload).
Proof.
  assert (Hr : is_Some (payload !! "repoID")) by (eexists; reflexivity).
  assert (Hi : is_Some (payload !! "importID")) by (eexists; reflexivity).
  destruct (create_metric_posts_once_and_returns_echo RefStore.send repo
              payload (start t3) (PInt 7) (PInt 2)
              Hr Hi eq_refl eq_refl eq_refl eq_refl)
    as (_ & _ & Htrace & _ & Hecho & _ & _).
  split; [exact Htrace|].
  eapply Hecho; reflexivity.
Defined.

Lemma create_metric_accepts_bool_scores_witness :
  let r := create_metric RefStore.send repo payload_bool (start t3) in
  isinstance_int (PBool true) = true ∧
  trace r.2 = [post_request repo payload_bool].
Proof.
  assert (Hr : is_Some (payload_bool !! "repoID")) by (eexists; reflexivity).
  assert (Hi : is_Some (payload_bool !! "importID")) by (eexists; reflexivity).
  destruct (create_metric_accepts_bool_scores RefStore.send repo
              payload_bool (start t3) (PBool true) (PInt 2)
              Hr Hi eq_refl eq_refl eq_refl eq_refl eq_refl)
    as (Hint & _ & Htrace & _).
  split; [exact Hint|exact Htrace].
Defined.

Lemma get_metrics_by_score_range_invalid_field_witness :
  let r := get_metrics_by_score_range RefStore.send repo "fooScore" 0 10 (start t3) in
  r.1 = Ret (PList []) ∧ trace r.2 = [] ∧ world r.2 = t3.
Proof.
  apply (get_metrics_by_score_range_invalid_field RefStore.send repo
           "fooScore" 0 10 (start t3)).
  unfold score_fields. intros H.
  repeat (apply elem_of_cons in H as [H|H]; [discriminate H|]).
  by apply elem_of_nil in H.
Defined.

Lemma get_metrics_summary_averages_witness :
  ∃ avg,
    (get_metrics_summary RefStore.send repo (start t3)).1 =
      Ret {| total_count := 3; average_scores := avg |} ∧
    avg !! "avg_complexityScore" = Some (PFloat (mean [4; 6; 9])) ∧
    avg !! "avg_packageVersionScore" = Some PNone.
Proof.
  assert (Hsend : RefStore.send (world (start t3)) (count_request repo) =
                  (Ret count_three, t3)) by reflexivity.
  assert (Hcount : count_of_response count_three = Ret 3)
    by (vm_compute; reflexivity).
  assert (Hfetch : get_all_metrics RefStore.send repo 1000 0
                     (mkState t3 (trace (start t3) ++ [count_request repo])
                        (log (start t3))) =
                   (Ret (PList (PDict <$> t3)),
                    mkState t3 [count_request repo; page_request repo 1000 0] []))
    by reflexivity.
  assert (Hms : forallb is_metric_record (PDict <$> t3) = true)
    by (vm_compute; reflexivity).
  destruct (get_metrics_summary_averages RefStore.send repo (start t3)
              count_three t3 3 (PDict <$> t3) _ Hsend Hcount Hfetch Hms)
    as (avg & Heq & _ & _ & Havg & _).
  assert (Hne : PDict <$> t3 ≠ []) by discriminate.
  exists avg. split; [by rewrite Heq|]. split.
  - apply (Havg Hne "complexityScore").
    unfold score_fields. apply list_elem_of_further, list_elem_of_here.
  - apply (Havg Hne "packageVersionScore").
    unfold score_fields. do 4 apply list_elem_of_further. apply list_elem_of_here.
Defined.

Lemma get_metrics_summary_count_failure_keeps_averages_witness :
  (get_metrics_summary Scripted.send repo
     (start [Ret count_failed; Ret (page_of t3)])).1 =
    Ret {| total_count := 0; average_scores := expected_averages (PDict <$> t3) |} ∧
  expected_averages (PDict <$> t3) !! "avg_complexityScore" =
    Some (PFloat (mean [4; 6; 9])).
Proof.
  assert (Hne : PDict <$> t3 ≠ []) by discriminate.
  assert (Hms : forallb is_metric_record (PDict <$> t3) = true)
    by (vm_compute; reflexivity).
  assert (Hfail : status_code count_failed ≠ 200 ∨
                  resp_headers count_failed !! "content-range" = None)
    by (left; discriminate).
  destruct (get_metrics_summary_count_failure_keeps_averages Scripted.send repo
              (start [Ret count_failed; Ret (page_of t3)])
              count_failed [Ret (page_of t3)] (page_of t3) [] (PDict <$> t3)
              eq_refl Hfail eq_refl eq_refl eq_refl Hne Hms)
    as (Heq & _ & Havg).
  split; [exact Heq|].
  apply (Havg "complexityScore").
  unfold score_fields. apply list_elem_of_further, list_elem_of_here.
Defined.

Lemma get_repo_metrics_summary_first_page_witness :
  ∃ avg,
    (get_repo_metrics_summary RefStore.send repo "r1" (start t3)).1 =
      Ret {| repo_id := "r1"; metric_count := 2; repo_average_scores := avg |} ∧
    avg !! "avg_complexityScore" = Some (PFloat (mean [4; 6])) ∧
    Qeq (mean [4; 6]) (5 # 1).
Proof.
  assert (Ht : forallb is_metric_row t3 = true) by (vm_compute; reflexivity).
  destruct (get_repo_metrics_summary_first_page repo "r1" t3 (start t3) eq_refl Ht)
    as (Heq & _).
  eexists. split; [exact Heq|]. split; reflexivity.
Defined.

Lemma methods_absorb_failures_witness :
  returns (get_metrics_summary Scripted.send repo) (start [Ret count_failed]) ∧
  (create_metric Scripted.send repo payload (start [Ret count_failed])).1 =
    Ret PNone ∧
  (get_all_metrics Scripted.send repo 100 0 (start [Ret count_failed])).1 =
    Ret (PList []) ∧
  (get_repo_metrics_summary Scripted.send repo "r1" (start [Ret count_failed])).1 =
    Ret (zero_repo_summary "r1") ∧
  (get_metrics_summary Scripted.send repo (start [Ret count_failed])).1 =
    Ret zero_summary ∧
  (get_metrics_summary Scripted.send repo (start [])).1 = Ret zero_summary.
Proof.
  destruct (methods_absorb_failures Scripted.send repo (start [Ret count_failed]))
    as (_ & _ & _ & _ & _ & _ & Hret & _ & Hcreate & _ & _ & _ & Hall & _ & Hrepo
        & _ & _ & Hsum).
  destruct (methods_absorb_failures Scripted.send repo (start []))
    as (_ & _ & _ & _ & _ & _ & _ & _ & _ & _ & _ & _ & _ & _ & _ & Hdead & _).
  split; [exact Hret|].
  split; [exact (Hcreate payload eq_refl)|].
  split; [exact (Hall 100 0 eq_refl)|].
  split; [exact (Hrepo "r1" eq_refl)|].
  split; [|exact (Hdead RequestException eq_refl)].
  apply (Hsum count_failed [] eq_refl); [discriminate|reflexivity].
Defined.

Lemma get_metric_by_keys_first_match_or_none_witness :
  (get_metric_by_keys RefStore.send repo "r1" "i2" (start t3)).1 = Ret (PDict row2) ∧
  (get_metric_by_keys RefStore.send repo "r1" "i9" (start t3)).1 = Ret PNone.
Proof.
  split.
  - destruct (get_metric_by_keys_first_match_or_none RefStore.send repo
                "r1" "i2" (start t3)) as (_ & _ & _ & Hfirst & _).
    eapply Hfirst; reflexivity.
  - destruct (get_metric_by_keys_first_match_or_none RefStore.send repo
                "r1" "i9" (start t3)) as (_ & _ & _ & _ & Hnone & _).
    eapply Hnone; reflexivity.
Defined.

Lemma count_of_response_content_range_witness :
  count_of_response count_five = Ret 5.
Proof.
  apply (count_of_response_content_range count_five "0-4" 5); reflexivity.
Defined.

Lemma get_metrics_summary_unparsable_count_witness :
  let r := get_metrics_summary Scripted.send repo
             (start [Ret count_star; Ret (page_of t3)]) in
  r.1 = Ret zero_summary ∧ trace r.2 = [count_request repo].
Proof.
  destruct (get_metrics_summary_unparsable_count Scripted.send repo
              (start [Ret count_star; Ret (page_of t3)])
              count_star [Ret (page_of t3)] "0-24/*"
              (ValueError "invalid literal for int() with base 10")
              eq_refl eq_refl eq_refl ltac:(discriminate) eq_refl)
    as (H1 & H2 & _).
  split; [exact H1|exact H2].
Defined.

Lemma create_metric_validates_only_required_witness :
  trace (create_metric RefStore.send repo payload_loose (start t3)).2 =
  [post_request repo payload_loose].
Proof.
  destruct (create_metric_validates_only_required RefStore.send repo
              PNone (PInt 3) (PInt 7) (PBool false)
              {[ "churnScore" := PStr "high" ]} (start t3) eq_refl eq_refl)
    as (H & _).
  exact H.
Defined.

Lemma create_metric_none_after_write_witness :
  let r := create_metric Scripted.send repo payload (start [Ret created_empty]) in
  r.1 = Ret PNone ∧ trace r.2 = [post_request repo payload].
Proof.
  assert (Hr : is_Some (payload !! "repoID")) by (eexists; reflexivity).
  assert (Hi : is_Some (payload !! "importID")) by (eexists; reflexivity).
  destruct (create_metric_none_after_write Scripted.send repo payload
              (start [Ret created_empty]) (PInt 7) (PInt 2) created_empty []
              Hr Hi eq_refl eq_refl eq_refl eq_refl eq_refl eq_refl
              (or_intror eq_refl))
    as (H1 & H2 & _).
  split; [exact H1|exact H2].
Defined.

Lemma average_of_skips_null_witness :
  average_of "complexityScore" (PList [PDict row1; PDict null_row; PDict row2]) =
  average_of "complexityScore" (PList [PDict row1; PDict row2]).
Proof.
  apply (average_of_skips_null "complexityScore" [PDict row1] [PDict row2] null_row).
  left. reflexivity.
Defined.

Lemma get_metrics_summary_malformed_record_witness :
  (get_metrics_summary Scripted.send repo
     (start [Ret count_five; Ret (page_of [row1; bad_row])])).1 = Ret zero_summary.
Proof.
  apply (get_metrics_summary_malformed_record Scripted.send repo
           (start [Ret count_five; Ret (page_of [row1; bad_row])])
           count_five [Ret (page_of [row1; bad_row])] 5
           (page_of [row1; bad_row]) [] (PDict <$> [row1; bad_row])
           bad_row "churnScore" "high");
    try reflexivity.
  - apply list_elem_of_further, list_elem_of_here.
  - unfold score_fields. do 2 apply list_elem_of_further. apply list_elem_of_here.
Defined.

Lemma get_repo_metrics_summary_malformed_record_witness :
  (get_repo_metrics_summary Scripted.send repo "r1"
     (start [Ret (page_of [row1; bad_row])])).1 = Ret (zero_repo_summary "r1").
Proof.
  apply (get_repo_metrics_summary_malformed_record Scripted.send repo "r1"
           (start [Ret (page_of [row1; bad_row])])
           (page_of [row1; bad_row]) [] (PDict <$> [row1; bad_row])
           bad_row "churnScore" "high");
    try reflexivity.
  - apply list_elem_of_further, list_elem_of_here.
  - unfold score_fields. do 2 apply list_elem_of_further. apply list_elem_of_here.
Defined.

Lemma get_metric_by_keys_object_body_witness :
  (get_metric_by_keys Scripted.send repo "r1" "i1"
     (start [Ret (mkResponse 200 (Some (PDict row1)) ∅)])).1 = Ret PNone.
Proof.
  apply (get_metric_by_keys_object_body Scripted.send repo "r1" "i1"
           (start [Ret (mkResponse 200 (Some (PDict row1)) ∅)])
           (mkResponse 200 (Some (PDict row1)) ∅) [] row1); reflexivity.
Defined.

Lemma get_all_metrics_paginates_witness :
  (get_all_metrics RefStore.send repo 1 1 (start t3)).1 = Ret (PList [PDict row2]).
Proof.
  destruct (get_all_metrics_paginates repo 1 1 t3 (start t3) eq_refl
              ltac:(discriminate) ltac:(discriminate)) as [H _].
  exact H.
Defined.

Lemma get_all_metrics_pages_tile_witness :
  ∃ p1 p2,
    (get_all_metrics RefStore.send repo 1 0 (start t3)).1 = Ret (PList p1) ∧
    (get_all_metrics RefStore.send repo 2 1 (start t3)).1 = Ret (PList p2) ∧
    (get_all_metrics RefStore.send repo 3 0 (start t3)).1 = Ret (PList (p1 ++ p2)).
Proof.
  apply (get_all_metrics_pages_tile repo 1 2 0 t3 (start t3) eq_refl);
    discriminate.
Defined.

Lemma get_metrics_by_repo_filters_and_paginates_witness :
  (get_metrics_by_repo RefStore.send repo "r1" 1 1 (start t3)).1 =
  Ret (PList [PDict row2]).
Proof.
  destruct (get_metrics_by_repo_filters_and_paginates repo "r1" 1 1 t3 (start t3)
              eq_refl eq_refl ltac:(discriminate) ltac:(discriminate)) as [H _].
  exact H.
Defined.

Lemma get_metrics_by_import_filters_and_paginates_witness :
  (get_metrics_by_import RefStore.send repo "i1" 10 0 (start t3)).1 =
  Ret (PList [PDict row1; PDict row3]).
Proof.
  destruct (get_metrics_by_import_filters_and_paginates repo "i1" 10 0 t3 (start t3)
              eq_refl eq_refl ltac:(discriminate) ltac:(discriminate)) as [H _].
  exact H.
Defined.

Lemma get_metric_by_keys_first_with_key_witness :
  (get_metric_by_keys RefStore.send repo "r2" "i1" (start t3)).1 = Ret (PDict row3).
Proof.
  exact (get_metric_by_keys_first_with_key repo "r2" "i1" t3 (start t3)
           eq_refl eq_refl).
Defined.

Lemma create_metric_then_get_metric_by_keys_witness :
  let r := create_metric RefStore.send repo payload (start t3) in
  r.1 = Ret (PDict payload) ∧
  (get_metric_by_keys RefStore.send repo "r3" "i1" r.2).1 = Ret (PDict payload).
Proof.
  destruct (create_metric_then_get_metric_by_keys repo payload "r3" "i1"
              (PInt 7) (PInt 2) t3 (start t3)
              eq_refl eq_refl eq_refl eq_refl eq_refl eq_refl eq_refl eq_refl eq_refl)
    as (H1 & _ & H2).
  split; [exact H1|exact H2].
Defined.

Lemma get_metrics_by_score_range_upper_bound_only_witness :
  (get_metrics_by_score_range RefStore.send repo "totalScore" 5 10 (start t3)).1 =
  Ret (PList [PDict row1; PDict row2]).
Proof.
  apply (get_metrics_by_score_range_upper_bound_only repo "totalScore" 5 10 t3
           (start t3) eq_refl).
  unfold score_fields. do 3 apply list_elem_of_further. apply list_elem_of_here.
Defined.

Lemma get_metrics_summary_counts_all_averages_first_1000_witness :
  (get_metrics_summary RefStore.send repo (start t3)).1 =
  Ret {| total_count := 3; average_scores := expected_averages (PDict <$> t3) |}.
Proof.
  destruct (get_metrics_summary_counts_all_averages_first_1000 repo t3 (start t3)
              eq_refl eq_refl) as [H _].
  exact H.
Defined.
